(** * peanuts: the interactive session over the schema-typed record store

    A shallow embedding of [src/common.py] and [peanuts/cli/session.py]
    (class [Session]: [map_insert_to_json], [run_command], [run_session]).

    Python values are an inductive type, exceptions are an inductive type,
    and every method that prints, prompts, touches the schema registry or
    the record files is a function in a state-and-exception monad over an
    explicit [World].  Text is a [string] whose characters stand for code
    points below 256; the few literals of the source outside that range
    are kept as their UTF-8 bytes.

    The session calls four things that are not in these two files: the
    [json] module, which is a class [Json] the development is parametric
    in; the console of the [rich] library, whose markup rendering module
    [Markup] follows, parametric in a class [Rich]; the enumeration
    [SchemaTypeToPyT]; and the storage engine ([Instance], [Schema], its
    cache and the record files), which module [Engine] models from the
    spec.

    The definitions come first, the properties after them. *)

From Stdlib Require Import ZArith Floats Ascii String.
From stdpp Require Import gmap strings list fin_maps pretty.

Open Scope string_scope.
Open Scope list_scope.

Set Warnings "-register-all".

(** ** Python values *)

(** The values [json.loads] can produce, which are also all the values the
    session ever stores: [None], [bool], [int], [float] (IEEE binary64),
    [str], [list] and [dict] (insertion ordered, string keys). *)
Inductive pyval :=
| PyNone
| PyBool (b : bool)
| PyInt (z : Z)
| PyFloat (f : float)
| PyStr (s : string)
| PyList (l : list pyval)
| PyDict (d : list (string * pyval)).

(** The classes of those values, [type(v)]. *)
Inductive pytype := NoneType | bool_ | int_ | float_ | str_ | list_ | dict_.

#[global] Instance pytype_eq_dec : EqDecision pytype.
Proof. solve_decision. Defined.

Definition type_ (v : pyval) : pytype :=
  match v with
  | PyNone => NoneType
  | PyBool _ => bool_
  | PyInt _ => int_
  | PyFloat _ => float_
  | PyStr _ => str_
  | PyList _ => list_
  | PyDict _ => dict_
  end.

(** [t.__name__] *)
Definition type_name (t : pytype) : string :=
  match t with
  | NoneType => "NoneType"
  | bool_ => "bool"
  | int_ => "int"
  | float_ => "float"
  | str_ => "str"
  | list_ => "list"
  | dict_ => "dict"
  end.

(** [str(t)] for a class [t], e.g. [<class 'int'>]. *)
Definition str_type (t : pytype) : string :=
  "<class '" +:+ type_name t +:+ "'>".

(** [issubclass(s, t)]: every class is its own subclass, and [bool] is a
    subclass of [int]; there are no other subclass relations among the
    seven classes. *)
Definition issubclass (s t : pytype) : bool :=
  bool_decide (s = t) || (bool_decide (s = bool_) && bool_decide (t = int_)).

(** [isinstance(v, t)] *)
Definition isinstance (v : pyval) (t : pytype) : bool :=
  issubclass (type_ v) t.

(** Truth value of an object, as [assert] and [if] test it. *)
Definition truthy (v : pyval) : bool :=
  match v with
  | PyNone => false
  | PyBool b => b
  | PyInt z => negb (z =? 0)%Z
  | PyFloat f => negb (PrimFloat.eqb f 0%float)
  | PyStr s => negb (bool_decide (s = ""))
  | PyList l => negb (bool_decide (length l = 0))
  | PyDict d => negb (bool_decide (length d = 0))
  end.

(** ** Exceptions *)

(** The exception classes the session raises or handles.  An exception
    built with a message carries it ([str(e)]); [KeyError] carries the
    missing key.  [DataTypeConflictException_] is the instance as
    [Exception.__init__] stores it, with its one argument, the message.
    [MarkupError] is the error of the console when a text it is to show
    is not well-formed markup; nothing in the session prints its message,
    which is left out.  [MalformedSchema], [DuplicateSchema],
    [SchemaNotFound] and [InvalidIdentifier] are the spec's registry and
    addressing errors.  [OtherException] stands for an exception of any
    other class, which no handler of the session matches. *)
Inductive exn :=
| DataTypeConflictException_ (msg : string)
| JSONDecodeError (msg : string)
| AssertionError (msg : string)
| TypeError (msg : string)
| KeyError (key : string)
| IndexError
| EOFError
| FileNotFoundError
| KeyboardInterrupt
| MarkupError
| MalformedSchema
| DuplicateSchema (name : string)
| SchemaNotFound (name : string)
| InvalidIdentifier (id : string)
| OtherException (class_name msg : string).

(** A call either returns a value or raises. *)
Inductive outcome (A : Type) :=
| Return (a : A)
| Raise (e : exn).
Arguments Return {A} a.
Arguments Raise {A} e.

Definition obind {A B} (o : outcome A) (k : A -> outcome B) : outcome B :=
  match o with
  | Return a => k a
  | Raise e => Raise e
  end.

(** ** src/common.py *)

Definition display_syntax (cmd valid : string) : string :=
  "[red]Wrong usage of command " +:+ cmd +:+ String "010"%char "" +:+
  "[bold]Correct Usage (<>: Required, []: Optional):[/bold][/red] [green]" +:+
  valid +:+ "[/green]".

(** [DataTypeConflictException(exp, got)]: the constructor passes the one
    formatted message to [Exception.__init__]. *)
Definition DataTypeConflictException (exp got : string) : exn :=
  DataTypeConflictException_ ("Expected " +:+ exp +:+ ", got " +:+ got).

(** ** The schema field types *)

(** Modelled from the spec: the enumeration [SchemaTypeToPyT] of
    [src/schema.py], which is not among the sources.  The spec's FieldType
    is a closed enumeration of four scalar types and their four array
    counterparts; the members are named as [map_insert_to_json] names them. *)
Inductive SchemaTypeToPyT :=
| STRING | INTEGER | FLOAT | BOOL
| A_STRING | A_INTEGER | A_FLOAT | A_BOOL.

#[global] Instance SchemaTypeToPyT_eq_dec : EqDecision SchemaTypeToPyT.
Proof. solve_decision. Defined.

(** ** Field validation inside [map_insert_to_json] *)

(** [for item in arr]: what iterating over a decoded value yields.  A list
    yields its elements, a string its characters (each a string of length
    one), a dict its keys; the other values are not iterable. *)
Definition iterate (arr : pyval) : outcome (list pyval) :=
  match arr with
  | PyList l => Return l
  | PyStr s => Return ((fun c => PyStr (String c "")) <$> list_ascii_of_string s)
  | PyDict d => Return ((fun kv => PyStr kv.1) <$> d)
  | v => Raise (TypeError ("'" +:+ type_name (type_ v) +:+ "' object is not iterable"))
  end.

(** The body of the [for] loop of [verify_array]; falling off the end of
    the function returns [None]. *)
Fixpoint verify_array_loop (t : pytype) (items : list pyval) : outcome pyval :=
  match items with
  | [] => Return PyNone
  | item :: rest =>
      if negb (isinstance item t)
      then Raise (DataTypeConflictException (str_type t) (str_type (type_ item)))
      else verify_array_loop t rest
  end.

(** [verify_array(t, arr)], the local function of [map_insert_to_json]. *)
Definition verify_array (t : pytype) (arr : pyval) : outcome pyval :=
  obind (iterate arr) (verify_array_loop t).

(** [assert e]: raises [AssertionError] with no message when [e] is not
    truthy. *)
Definition assert_ (e : outcome pyval) : outcome unit :=
  obind e (fun v => if truthy v then Return tt else Raise (AssertionError "")).

(** The [if]/[elif] chain of [map_insert_to_json] that follows
    [data = json.loads(ind)] and precedes [entries[key] = data]. *)
Definition validate (tdata : SchemaTypeToPyT) (data : pyval) : outcome unit :=
  if bool_decide (tdata ∈ [A_BOOL; A_FLOAT; A_INTEGER; A_STRING]) then
    if bool_decide (tdata = A_STRING) then assert_ (verify_array str_ data)
    else if bool_decide (tdata = A_INTEGER) then assert_ (verify_array int_ data)
    else if bool_decide (tdata = A_FLOAT) then assert_ (verify_array float_ data)
    else if bool_decide (tdata = A_BOOL) then assert_ (verify_array bool_ data)
    else Return tt
  else if bool_decide (tdata = BOOL) && negb (isinstance data bool_) then
    Raise (DataTypeConflictException "bool" (str_type (type_ data)))
  else if bool_decide (tdata = INTEGER) && negb (isinstance data int_) then
    Raise (DataTypeConflictException "int" (str_type (type_ data)))
  else if bool_decide (tdata = FLOAT) && negb (isinstance data float_) then
    Raise (DataTypeConflictException "float" (str_type (type_ data)))
  else Return tt.

(** ** Python string methods used by the session *)

Module Str.

(** [c.isspace()] for a code point below 256. *)
Definition isspace (c : ascii) : bool :=
  let n := nat_of_ascii c in
  (((9 <=? n) && (n <=? 13)) || ((28 <=? n) && (n <=? 31)) ||
   (n =? 32) || (n =? 133) || (n =? 160))%nat.

Fixpoint lstrip_by (p : ascii -> bool) (s : string) : string :=
  match s with
  | String c s' => if p c then lstrip_by p s' else s
  | EmptyString => EmptyString
  end.

Definition rstrip_by (p : ascii -> bool) (s : string) : string :=
  String.rev (lstrip_by p (String.rev s)).

Definition strip_by (p : ascii -> bool) (s : string) : string :=
  rstrip_by p (lstrip_by p s).

(** [s.strip()] *)
Definition strip (s : string) : string := strip_by isspace s.

(** [s.strip(chars)] *)
Definition strip_chars (chars s : string) : string :=
  strip_by (fun c => bool_decide (c ∈ list_ascii_of_string chars)) s.

(** [s.endswith(suffix)] *)
Definition endswith (s suffix : string) : bool :=
  String.prefix (String.rev suffix) (String.rev s).

(** [s.split()]: the maximal runs of non-whitespace characters.  [cur]
    is the run being read, reversed. *)
Fixpoint split_go (cur : string) (s : string) : list string :=
  match s with
  | EmptyString => if bool_decide (cur = "") then [] else [String.rev cur]
  | String c s' =>
      if isspace c
      then (if bool_decide (cur = "") then split_go "" s'
            else String.rev cur :: split_go "" s')
      else split_go (String c cur) s'
  end.

Definition split (s : string) : list string := split_go "" s.

(** [sep.join(l)] *)
Fixpoint join (sep : string) (l : list string) : string :=
  match l with
  | [] => ""
  | [x] => x
  | x :: rest => x +:+ sep +:+ join sep rest
  end.

(** [c not in s], for a character [c] *)
Fixpoint lacks (c : ascii) (s : string) : bool :=
  match s with
  | EmptyString => true
  | String x s' => negb (bool_decide (x = c)) && lacks c s'
  end.

End Str.

(** ** Console markup *)

(** [Session.console] is a [rich.console.Console], and every text it
    prints or prompts with is console markup: [[bold]] opens a style,
    [[/bold]] closes it.  The console renders the text before it shows
    anything, and the rendering raises [MarkupError] on a closing tag that
    closes nothing.  The library is not part of the repository; module
    [Markup] follows its renderer as far as it decides between returning
    and raising.

    Two things the renderer calls are left as parameters: the normal form
    of a style name ([Style.normalize], which parses style definitions),
    and whether the parameters of a closed [@] tag evaluate as a Python
    literal. *)
Class Rich := {
  Style_normalize : string -> string;
  handler_evaluates : string -> bool
}.

Module Markup.

(** The tags of a text are the matches of the renderer's tag pattern: a
    run of backslashes, an open bracket, a character that may start a tag
    (a lower-case letter, a hash, a slash or an at sign), then anything
    but an open bracket up to the first close bracket.  The scanner reads
    the text once.  It keeps the length of the run of backslashes it has
    just read; after an open bracket it keeps the candidate tag, which is
    the length of the run before the bracket and what followed the bracket
    so far; and it keeps the tags found, each with the run of backslashes
    before it. *)
Record scanner := mkScanner {
  backslashes : nat;
  candidate : option (nat * string);
  found : list (nat * string)
}.

(** A character that may start a tag. *)
Definition tag_start (c : ascii) : bool :=
  let n := nat_of_ascii c in
  ((97 <=? n) && (n <=? 122))%nat || bool_decide (c ∈ ["#"; "/"; "@"]%char).

Definition step (st : scanner) (c : ascii) : scanner :=
  let run := if bool_decide (c = "\"%char) then S (backslashes st) else 0 in
  if bool_decide (c = "["%char) then mkScanner 0 (Some (backslashes st, "")) (found st)
  else
    match candidate st with
    | Some (esc, "") =>
        mkScanner run (if tag_start c then Some (esc, String c "") else None) (found st)
    | Some (esc, body) =>
        if bool_decide (c = "]"%char)
        then mkScanner 0 None (found st ++ [(esc, body)])
        else mkScanner run (Some (esc, body +:+ String c "")) (found st)
    | None => mkScanner run None (found st)
    end.

Fixpoint scan (st : scanner) (s : string) : scanner :=
  match s with
  | EmptyString => st
  | String c s' => scan (step st c) s'
  end.

Definition start : scanner := mkScanner 0 None [].

(** [text.partition("=")] *)
Fixpoint partition_eq (s : string) : string * option string :=
  match s with
  | EmptyString => ("", None)
  | String c s' =>
      if bool_decide (c = "="%char) then ("", Some s')
      else let p := partition_eq s' in (String c p.1, p.2)
  end.

(** What a tag asks of the renderer.  The name of a tag is its text up to
    the first [=], its parameters are what follows that [=].  A name that
    starts with a slash closes: the style named after the slash, stripped,
    or, when that is empty, whatever was opened last.  Any other name
    opens. *)
Inductive action :=
| Opening (tag_name : string) (parameters : option string)
| Closing (style_name : string)
| ClosingLast.

Definition action_of (text : string) : action :=
  let p := partition_eq text in
  match p.1 with
  | String c style =>
      if bool_decide (c = "/"%char) then
        if bool_decide (Str.strip style = "") then ClosingLast
        else Closing (Str.strip style)
      else Opening p.1 p.2
  | EmptyString => Opening p.1 p.2
  end.

(** A tag after an odd number of backslashes is escaped and is plain
    text. *)
Definition unescaped (l : list (nat * string)) : list action :=
  action_of <$> (List.filter (fun t => Nat.even t.1) l).*2.

Definition actions (markup : string) : list action :=
  unescaped (found (scan start markup)).

(** An open tag on the stack of the renderer, under its normal name. *)
Record Tag := mkTag {
  name : string;
  parameters : option string
}.

Section Render.

Context {rich : Rich}.

(** [pop_style(style_name)]: the open tag nearest the top of the stack
    that has this name is taken out of the stack. *)
Fixpoint pop_style (style_name : string) (stack : list Tag) : option (Tag * list Tag) :=
  match stack with
  | [] => None
  | t :: below =>
      if String.eqb (name t) style_name then Some (t, below)
      else p ← pop_style style_name below; Some (p.1, t :: p.2)
  end.

(** [style_stack.pop()] *)
Definition pop (stack : list Tag) : option (Tag * list Tag) :=
  match stack with
  | [] => None
  | t :: below => Some (t, below)
  end.

(** Closing an open tag: the parameters of an [@] tag, when it has any,
    are evaluated, and this is the one other place where the renderer
    raises. *)
Definition closes (open_tag : Tag) : bool :=
  match parameters open_tag with
  | Some (String c p) =>
      match name open_tag with
      | String x _ => if bool_decide (x = "@"%char) then handler_evaluates (String c p) else true
      | EmptyString => true
      end
  | _ => true
  end.

(** The loop of [render] over the tags, with the stack of open tags, top
    first; [None] stands for [MarkupError].  An opening tag is pushed
    under its normal name.  A closing tag takes the nearest open tag of
    its style out of the stack, or the top one, and raises when there is
    none.  The tags still open at the end are closed by the end of the
    text. *)
Fixpoint render (stack : list Tag) (l : list action) : option (list Tag) :=
  match l with
  | [] => Some stack
  | Opening tag_name params :: rest =>
      render (mkTag (Style_normalize tag_name) params :: stack) rest
  | Closing style_name :: rest =>
      o ← pop_style (Style_normalize style_name) stack;
      if closes o.1 then render o.2 rest else None
  | ClosingLast :: rest =>
      o ← pop stack;
      if closes o.1 then render o.2 rest else None
  end.

(** Whether the console renders the text, and so shows it. *)
Definition renders (markup : string) : bool :=
  match render [] (actions markup) with
  | Some _ => true
  | None => false
  end.

End Render.

End Markup.

(** ** The json module *)

(** Python's [json] module, as far as the session and the record files
    use it: [loads] returns the decoded value or raises (a
    [JSONDecodeError] on text that is not JSON), [dumps] renders a value
    of the kinds above. *)
Class Json := {
  json_loads : string -> outcome pyval;
  json_dumps : pyval -> string
}.

(** ** The world the session runs in *)

(** What the terminal has shown, oldest first. *)
Inductive shown :=
| Printed (text : string)                (* [console.print(text)] *)
| Prompted (prompt : string)             (* [console.input(prompt)] *)
| Tabulated (rows : list (list pyval)).  (* [print(tabulate.tabulate(rows, ...))] *)

(** Modelled from the spec: the class [Schema] of [src/schema.py], which is
    not among the sources.  A schema owns its ordered configuration (field
    name to field type) and exactly one cache, a mapping from record
    identifier to record value.  A record value is a dict from field name
    to value. *)
Record Schema := mkSchema {
  configs : list (string * SchemaTypeToPyT);
  cache : gmap string (list (string * pyval))
}.

(** The state the session reads and writes: the lines still to come on
    standard input, the terminal, the schema registry [self.app.schemas]
    (modelled from the spec: [Instance] of [src/main.py] owns a mapping from
    schema name to Schema) and the record files, addressed by schema name
    and record identifier, each with the text it holds.  A Schema object is
    referred to by the name it is registered under. *)
Record World := mkWorld {
  dbname : string;
  stdin : list string;
  screen : list shown;
  schemas : gmap string Schema;
  disk : gmap string (gmap string string)
}.

Definition show (x : shown) (w : World) : World :=
  mkWorld (dbname w) (stdin w) (screen w ++ [x]) (schemas w) (disk w).

Definition set_stdin (l : list string) (w : World) : World :=
  mkWorld (dbname w) l (screen w) (schemas w) (disk w).

Definition set_schemas (m : gmap string Schema) (w : World) : World :=
  mkWorld (dbname w) (stdin w) (screen w) m (disk w).

Definition set_disk (d : gmap string (gmap string string)) (w : World) : World :=
  mkWorld (dbname w) (stdin w) (screen w) (schemas w) d.

(** ** The monad of session code: state and exceptions *)

Definition M (A : Type) : Type := World -> outcome A * World.

Definition ret {A} (a : A) : M A := fun w => (Return a, w).

Definition raise {A} (e : exn) : M A := fun w => (Raise e, w).

Definition bind {A B} (m : M A) (k : A -> M B) : M B :=
  fun w =>
    match m w with
    | (Return a, w') => k a w'
    | (Raise e, w') => (Raise e, w')
    end.

Definition lift {A} (o : outcome A) : M A := fun w => (o, w).

(** [try: m  except ...: h]: the handler [h] tells, for an exception, whether
    one of the [except] clauses matches it and what that clause runs.  The
    effects of [m] up to the exception stay. *)
Definition try_except {A} (m : M A) (h : exn -> option (M A)) : M A :=
  fun w =>
    match m w with
    | (Return a, w') => (Return a, w')
    | (Raise e, w') =>
        match h e with
        | Some k => k w'
        | None => (Raise e, w')
        end
    end.

Declare Scope session_scope.
Delimit Scope session_scope with session.
Notation "x <- m ;; k" := (bind m (fun x => k))
  (at level 100, m at next level, right associativity) : session_scope.
Notation "m ;;; k" := (bind m (fun _ => k))
  (at level 100, right associativity) : session_scope.
Open Scope session_scope.

(** [console.print(text)]: the text is rendered and shown, or the
    rendering raises and nothing is shown. *)
Definition console_print {rich : Rich} (text : string) : M unit :=
  fun w =>
    if Markup.renders text then (Return tt, show (Printed text) w)
    else (Raise MarkupError, w).

(** [console.input(prompt)]: shows the prompt and reads one line; at the end
    of the input it raises [EOFError].  A prompt is console markup too.
    The session prompts with two fixed texts, which render, and with the
    text around the name of a declared field, which renders when the name
    has no open bracket in it; a declaration registers no name with a
    slash in it, so none that closes a tag, and the prompt of every field
    is taken to render. *)
Definition console_input (prompt : string) : M string :=
  fun w =>
    match stdin w with
    | [] => (Raise EOFError, show (Prompted prompt) w)
    | line :: rest => (Return line, set_stdin rest (show (Prompted prompt) w))
    end.

(** [print(tabulate.tabulate(rows, ...))]; the rendering of the table is
    the library's and is kept abstract. *)
Definition print_table (rows : list (list pyval)) : M unit :=
  fun w => (Return tt, show (Tabulated rows) w).

(** [l[i]] on a list *)
Definition getitem (l : list string) (i : nat) : M string :=
  match l !! i with
  | Some x => ret x
  | None => raise IndexError
  end.

(** [d[key] = value] on a dict: an existing key keeps its place. *)
Fixpoint dict_set (d : list (string * pyval)) (key : string) (value : pyval)
  : list (string * pyval) :=
  match d with
  | [] => [(key, value)]
  | (k, v) :: d' =>
      if bool_decide (k = key) then (k, value) :: d'
      else (k, v) :: dict_set d' key value
  end.

(** [d.get(key)] *)
Fixpoint dict_get {A} (d : list (string * A)) (key : string) : option A :=
  match d with
  | [] => None
  | (k, v) :: d' => if bool_decide (k = key) then Some v else dict_get d' key
  end.

(** ** The storage engine behind the session *)

(** The session calls into [src/main.py] and [src/schema.py], which are not
    among the sources.  This module models them from the spec. *)
Module Engine.

(** Modelled from the spec: the expected runtime type of a scalar field
    type, and the scalar base type of an array field type, from FieldType
    in [src/schema.py], which is missing. *)
Definition base_type (t : SchemaTypeToPyT) : pytype :=
  match t with
  | STRING | A_STRING => str_
  | INTEGER | A_INTEGER => int_
  | FLOAT | A_FLOAT => float_
  | BOOL | A_BOOL => bool_
  end.

(** Modelled from the spec: which members of FieldType, from
    [src/schema.py], which is missing, are the array counterparts. *)
Definition is_array (t : SchemaTypeToPyT) : bool :=
  match t with
  | A_STRING | A_INTEGER | A_FLOAT | A_BOOL => true
  | _ => false
  end.

(** Modelled from the spec: the spelling of a field type in a schema
    declaration and in the schema display, from [src/schema.py], which is
    missing.  The spec names the types STRING, INTEGER, FLOAT, BOOL and
    ARRAY_STRING, ARRAY_INTEGER, ARRAY_FLOAT, ARRAY_BOOL. *)
Definition type_token (t : SchemaTypeToPyT) : string :=
  match t with
  | STRING => "STRING" | INTEGER => "INTEGER" | FLOAT => "FLOAT" | BOOL => "BOOL"
  | A_STRING => "ARRAY_STRING" | A_INTEGER => "ARRAY_INTEGER"
  | A_FLOAT => "ARRAY_FLOAT" | A_BOOL => "ARRAY_BOOL"
  end.

(** Modelled from the spec: the reading of a type token of a schema
    declaration, from [src/schema.py], which is missing; a token is one of
    the FieldType names. *)
Definition parse_type (tok : string) : option SchemaTypeToPyT :=
  list_find (fun t => tok = type_token t)
    [STRING; INTEGER; FLOAT; BOOL; A_STRING; A_INTEGER; A_FLOAT; A_BOOL]
  ≫= fun p => Some p.2.

(** Modelled from the spec: the Type System's [validate] of
    [src/schema.py], which is missing.  A scalar type requires the value's
    runtime type to match exactly; an array type requires a sequence
    whose every element matches the scalar base type, and the first
    mismatching element aborts validation with the conflict (expected
    base type, actual type of the offending element). *)
Fixpoint validate_elements (t : pytype) (l : list pyval) : outcome unit :=
  match l with
  | [] => Return tt
  | v :: l' =>
      if bool_decide (type_ v = t) then validate_elements t l'
      else Raise (DataTypeConflictException (type_name t) (type_name (type_ v)))
  end.

(** Modelled from the spec: [validate(declaredType, rawValue)] of the Type
    System, from [src/schema.py], which is missing, as described above
    [validate_elements]; a value that is no sequence conflicts with an
    array type. *)
Definition validate (t : SchemaTypeToPyT) (v : pyval) : outcome unit :=
  if is_array t then
    match v with
    | PyList l => validate_elements (base_type t) l
    | _ => Raise (DataTypeConflictException "list" (type_name (type_ v)))
    end
  else
    if bool_decide (type_ v = base_type t) then Return tt
    else Raise (DataTypeConflictException (type_name (base_type t)) (type_name (type_ v))).

(** Modelled from the spec: the per-key validation of [Schema.write] of
    [src/schema.py], which is missing.  Each key present in the raw
    mapping is looked up in the configuration; a declared key is
    validated against its type, an unknown key is passed through. *)
Fixpoint validate_fields (cfg : list (string * SchemaTypeToPyT))
    (fields : list (string * pyval)) : outcome unit :=
  match fields with
  | [] => Return tt
  | (k, v) :: rest =>
      obind (match dict_get cfg k with
             | Some t => validate t v
             | None => Return tt
             end)
            (fun _ => validate_fields cfg rest)
  end.

(** Modelled from the spec: the identifiers that are safe for storage
    addressing, from [src/schema.py], which is missing.  The spec has the
    core fail with InvalidIdentifier on a path-traversal-unsafe
    identifier and names [..] and the path separators. *)
Definition safe_identifier (id : string) : bool :=
  negb (bool_decide (id = "..")) && Str.lacks "/" id && Str.lacks "\" id.

(** [self.app.schemas[name]] *)
Definition schemas_getitem (sname : string) : M Schema :=
  fun w =>
    match schemas w !! sname with
    | Some sc => (Return sc, w)
    | None => (Raise (KeyError sname), w)
    end.

Section Storage.

Context {json : Json}.

(** Modelled from the spec: the content of a record file, from
    [src/schema.py], which is missing.  A file holds the record's mapping
    from field name to value serialized as structured text, an object; a
    text that does not decode to an object is no record. *)
Definition record_text (r : list (string * pyval)) : string :=
  json_dumps (PyDict r).

Definition read_record (text : string) : outcome (list (string * pyval)) :=
  match json_loads text with
  | Return (PyDict r) => Return r
  | Return _ => Raise (JSONDecodeError "Expecting object")
  | Raise e => Raise e
  end.

(** Modelled from the spec: the Storage Backend of [src/schema.py], which
    is missing.  [persist] overwrites or creates the one file of the
    record; [fetch] fails with RecordNotFound, which is the absent file's
    [FileNotFoundError], when there is no such file; both fail with
    InvalidIdentifier on an identifier that is not safe. *)
Definition persist (sname id : string) (r : list (string * pyval)) : M unit :=
  fun w =>
    if safe_identifier id then
      (Return tt,
       set_disk (<[sname := <[id := record_text r]> (default ∅ (disk w !! sname))]> (disk w)) w)
    else (Raise (InvalidIdentifier id), w).

(** Modelled from the spec: [fetch(schemaName, id)] of the Storage
    Backend, from [src/schema.py], which is missing. *)
Definition fetch (sname id : string) : M (list (string * pyval)) :=
  fun w =>
    if safe_identifier id then
      match disk w !! sname ≫= (fun dir => dir !! id) with
      | Some text => (read_record text, w)
      | None => (Raise FileNotFoundError, w)
      end
    else (Raise (InvalidIdentifier id), w).

(** Modelled from the spec: the Cache of [src/schema.py], which is
    missing.  [put] overwrites the in-memory entry; [get] returns the
    in-memory value if present and otherwise looks the record up on disk
    once, filling the entry on success; [load] with no identifier reads
    every record file of the schema into memory. *)
Definition Cache_put (sname id : string) (r : list (string * pyval)) : M unit :=
  sc <- schemas_getitem sname ;;
  fun w => (Return tt,
            set_schemas (<[sname := mkSchema (configs sc) (<[id := r]> (cache sc))]> (schemas w)) w).

(** Modelled from the spec: [Cache.get(id)], from [src/schema.py], which
    is missing. *)
Definition Cache_get (sname id : string) : M (list (string * pyval)) :=
  sc <- schemas_getitem sname ;;
  match cache sc !! id with
  | Some r => ret r
  | None => r <- fetch sname id ;; Cache_put sname id r ;;; ret r
  end.

(** The records a directory holds: one for each file whose text is a
    record. *)
Definition stored_records (dir : gmap string string) : gmap string (list (string * pyval)) :=
  omap (fun text => match read_record text with
                    | Return r => Some r
                    | Raise _ => None
                    end) dir.

(** Modelled from the spec: [Cache.load()] with no identifier, from
    [src/schema.py], which is missing.  The entries read from the files
    replace those in memory under the same identifier. *)
Definition Cache_load (sname : string) : M unit :=
  sc <- schemas_getitem sname ;;
  fun w => (Return tt,
            set_schemas (<[sname := mkSchema (configs sc)
                                      (stored_records (default ∅ (disk w !! sname))
                                       ∪ cache sc)]> (schemas w)) w).

Section Payload.

(** How [Schema.write] reads its raw payload text into a mapping from
    field name to value.  The spec lets the payload be a flat key=value
    string or a structured mapping and fixes neither syntax, so the
    reader is a parameter of the model; it fails with [JSONDecodeError],
    the spec's MalformedInput, on a payload that is not well formed. *)
Variable parse_payload :
  list (string * SchemaTypeToPyT) -> string -> outcome (list (string * pyval)).

(** Modelled from the spec: [Schema.write] and [Schema.read] of
    [src/schema.py], which is missing.  [write] validates the fields
    present in the payload, persists the record and then updates the
    cache for the identifier; [read] delegates to the cache. *)
Definition Schema_write_fields (sname id : string) (fields : list (string * pyval)) : M unit :=
  sc <- schemas_getitem sname ;;
  lift (validate_fields (configs sc) fields) ;;;
  persist sname id fields ;;;
  Cache_put sname id fields.

(** Modelled from the spec: [Schema.write(id, rawPayload)], from
    [src/schema.py], which is missing, on the payload text the session
    passes. *)
Definition Schema_write (sname id payload : string) : M unit :=
  sc <- schemas_getitem sname ;;
  fields <- lift (parse_payload (configs sc) payload) ;;
  Schema_write_fields sname id fields.

End Payload.

(** Modelled from the spec: [Schema.read(id)], from [src/schema.py], which
    is missing; it delegates to the cache. *)
Definition Schema_read (sname id : string) : M (list (string * pyval)) :=
  Cache_get sname id.

End Storage.

(** Modelled from the spec: [Schema.display_dict] of [src/schema.py],
    which is missing: the declared fields and their types, one row per
    field, in declaration order. *)
Definition Schema_display_dict (sname : string) : M (list (list pyval)) :=
  sc <- schemas_getitem sname ;;
  ret ((fun kt => [PyStr kt.1; PyStr (type_token kt.2)]) <$> configs sc).

(** Modelled from the spec: the pairwise parse of a schema declaration
    [field1 type1 field2 type2 ...] in [src/schema.py], which is missing.
    [None] stands for MalformedSchema: an odd count or an unrecognised
    type token. *)
Fixpoint parse_pairs (toks : list string) : option (list (string * SchemaTypeToPyT)) :=
  match toks with
  | [] => Some []
  | field :: tok :: rest =>
      t ← parse_type tok; cfg ← parse_pairs rest; Some ((field, t) :: cfg)
  | [_] => None
  end.

(** Modelled from the spec: [Instance.add_schema] and
    [Instance.drop_schema] of [src/main.py], which is missing.
    [add_schema] rejects a registered name, parses the declaration,
    rejects a field name that is not a safe identifier, and registers the
    schema with an empty cache and an empty directory; [drop_schema]
    removes the schema and its directory. *)
Definition add_schema (sname decl : string) : M unit :=
  fun w =>
    match schemas w !! sname with
    | Some _ => (Raise (DuplicateSchema sname), w)
    | None =>
        match parse_pairs (Str.split decl) with
        | None => (Raise MalformedSchema, w)
        | Some cfg =>
            match List.find (fun field => negb (safe_identifier field)) cfg.*1 with
            | Some field => (Raise (InvalidIdentifier field), w)
            | None =>
                (Return tt,
                 set_disk (<[sname := ∅]> (disk w))
                   (set_schemas (<[sname := mkSchema cfg ∅]> (schemas w)) w))
            end
        end
    end.

(** Modelled from the spec: [Instance.drop_schema(name)], from
    [src/main.py], which is missing. *)
Definition drop_schema (sname : string) : M unit :=
  fun w =>
    match schemas w !! sname with
    | None => (Raise (SchemaNotFound sname), w)
    | Some _ =>
        (Return tt, set_disk (delete sname (disk w)) (set_schemas (delete sname (schemas w)) w))
    end.

End Engine.

(** ** peanuts/cli/session.py *)

(** [str(tdata)] of an enumeration member.  Modelled from the spec: the
    enumeration is declared in [src/schema.py], which is missing; a plain
    [enum.Enum] prints as class name, dot, member name. *)
Definition str_tdata (tdata : SchemaTypeToPyT) : string :=
  "SchemaTypeToPyT." +:+
  match tdata with
  | STRING => "STRING" | INTEGER => "INTEGER" | FLOAT => "FLOAT" | BOOL => "BOOL"
  | A_STRING => "A_STRING" | A_INTEGER => "A_INTEGER"
  | A_FLOAT => "A_FLOAT" | A_BOOL => "A_BOOL"
  end.

Section Session.

Context {rich : Rich} {json : Json}.
Variable parse_payload :
  list (string * SchemaTypeToPyT) -> string -> outcome (list (string * pyval)).

(** The prompt of one field. *)
Definition field_prompt (key : string) (tdata : SchemaTypeToPyT) : string :=
  "[cyan][bold]" +:+ key +:+ " (type: " +:+ str_tdata tdata +:+ "): [/bold][/cyan]".

(** What one pass of the [for] loop binds to [entries[key]], given the
    line [ind] read for the field. *)
Definition field_entry (tdata : SchemaTypeToPyT) (ind : string) : outcome pyval :=
  if bool_decide (tdata = STRING) then Return (PyStr ind)
  else
    obind (json_loads ind) (fun data =>
    obind (validate tdata data) (fun _ =>
    Return data)).

(** The [for key, tdata in items.items()] loop, with [entries] built so far. *)
Fixpoint map_insert_loop (items : list (string * SchemaTypeToPyT))
    (entries : list (string * pyval)) : M (list (string * pyval)) :=
  match items with
  | [] => ret entries
  | (key, tdata) :: rest =>
      ind <- console_input (field_prompt key tdata) ;;
      value <- lift (field_entry tdata ind) ;;
      map_insert_loop rest (dict_set entries key value)
  end.

Definition map_insert_to_json (items : list (string * SchemaTypeToPyT)) : M string :=
  entries <- map_insert_loop items [] ;;
  ret (json_dumps (PyDict entries)).

(** [assert self.app.schemas.get(name), msg]; a Schema object is truthy. *)
Definition assert_schema (sname msg : string) : M unit :=
  fun w =>
    match schemas w !! sname with
    | Some _ => (Return tt, w)
    | None => (Raise (AssertionError msg), w)
    end.

(** The body of the [try] of [insert] with two arguments: prompt for the
    fields of the schema, then write the record. *)
Definition insert_prompted (sname : string) (restargs : list string) : M unit :=
  sc <- Engine.schemas_getitem sname ;;
  items <- map_insert_to_json (configs sc) ;;
  Engine.schemas_getitem sname ;;;
  id <- getitem restargs 1 ;;
  Engine.Schema_write parse_payload sname id items.

(** The [else] branch of [!load_cache]: one [try] per name. *)
Fixpoint load_each (names : list string) : M unit :=
  match names with
  | [] => ret tt
  | sname :: rest =>
      try_except
        (console_print ("⌛[blue]Loading " +:+ sname +:+ " ...") ;;;
         Engine.Cache_load (Str.strip sname))
        (fun e =>
           match e with
           | KeyError _ =>
               Some (console_print ("[red]No schema named [bold]" +:+ sname +:+ "[/bold] found."))
           | _ => None
           end) ;;;
      load_each rest
  end.

(** [for schema in self.app.schemas.values(): schema.cache.load()] *)
Fixpoint load_all (names : list string) : M unit :=
  match names with
  | [] => ret tt
  | sname :: rest => Engine.Cache_load sname ;;; load_all rest
  end.

Definition run_command (action : string) (restargs : list string) : M unit :=
  if bool_decide (action = "!create_schema") then
    sname <- getitem restargs 0 ;;
    Engine.add_schema sname (Str.join " " (drop 1 restargs))
  else if bool_decide (action = "!drop_schema") then
    sname <- getitem restargs 0 ;;
    Engine.drop_schema sname
  else if bool_decide (action = "!load_cache") then
    if bool_decide (length restargs = 0) then
      fun w => load_all (map_to_list (schemas w)).*1 w
    else load_each restargs
  else if bool_decide (action = "!display_schema") then
    if bool_decide (length restargs ≠ 1) then
      console_print (display_syntax "!display_schema" "!display_schema <schema_name>")
    else
      sname <- getitem restargs 0 ;;
      assert_schema sname ("No schema named [bold]" +:+ sname +:+ "[/bold] found") ;;;
      rows <- Engine.Schema_display_dict sname ;;
      print_table rows
  else if bool_decide (action = "insert") then
    sname <- getitem restargs 0 ;;
    assert_schema sname ("No schema named [bold]" +:+ sname +:+ "[/bold] found") ;;;
    if bool_decide (length restargs = 2) then
      try_except
        (insert_prompted sname restargs)
        (fun e =>
           match e with
           | DataTypeConflictException_ msg => Some (console_print ("[red]" +:+ msg))
           | JSONDecodeError _ => Some (console_print "[red]Invalid Input.")
           | _ => None
           end)
    else
      id <- getitem restargs 1 ;;
      Engine.Schema_write parse_payload sname id (Str.join " " (drop 2 restargs))
  else if bool_decide (action = "select") then
    sname <- getitem restargs 0 ;;
    assert_schema sname ("No schema named " +:+ sname +:+ " found") ;;;
    try_except
      (Engine.schemas_getitem sname ;;;
       id <- getitem restargs 1 ;;
       data <- Engine.Schema_read sname id ;;
       print_table ((fun kv => [PyStr kv.1; kv.2]) <$> data))
      (fun e =>
         match e with
         | FileNotFoundError =>
             Some (id <- getitem restargs 1 ;;
                   console_print ("[red]No data with ID " +:+ id +:+ " found."))
         | _ => None
         end)
  else if bool_decide (action ∈ ["!q"; "!quit"; ":q"; ":quit"]) then
    raise KeyboardInterrupt
  else
    console_print "[red]Invalid Command, use [bold]!help[/bold] to get a list of available commands.".

(** The inner loop [while not cmd.endswith(";")].  The two loops of
    [run_session] read the terminal until it is closed, so the model gives
    them fuel: [None] means the fuel ran out, which says nothing about the
    program; every pass reads at least one line, so one unit of fuel per
    pending line, and one more, is enough. *)
Fixpoint complete_command (fuel : nat) (cmd : string) (w : World)
  : option (outcome string * World) :=
  if Str.endswith cmd ";" then Some (Return cmd, w)
  else
    match fuel with
    | 0 => None
    | S fuel' =>
        match console_input "[bold][green]>[/green][/bold] " w with
        | (Return line, w') => complete_command fuel' (cmd +:+ " " +:+ Str.strip line) w'
        | (Raise e, w') => Some (Raise e, w')
        end
    end.

(** The rest of one pass of [while True], once the command is complete. *)
Definition dispatch (cmd : string) : M unit :=
  let vals := Str.split (Str.strip_chars " ;" cmd) in
  let args := Str.strip <$> filter (fun arg => arg ≠ " ") vals in
  try_except
    (action <- getitem vals 0 ;;
     run_command action (drop 1 args))
    (fun e =>
       match e with
       | AssertionError msg => Some (console_print ("[red]" +:+ msg))
       | _ => None
       end).

(** [while True] *)
Fixpoint session_loop (fuel : nat) (w : World) : option (outcome unit * World) :=
  match fuel with
  | 0 => None
  | S fuel' =>
      match console_input "[bold][green]#[/green][/bold] " w with
      | (Return line, w1) =>
          match complete_command fuel' (Str.strip line) w1 with
          | Some (Return cmd, w2) =>
              match dispatch cmd w2 with
              | (Return _, w3) => session_loop fuel' w3
              | (Raise e, w3) => Some (Raise e, w3)
              end
          | Some (Raise e, w2) => Some (Raise e, w2)
          | None => None
          end
      | (Raise e, w1) => Some (Raise e, w1)
      end
  end.

Definition run_session (fuel : nat) (w : World) : option (outcome unit * World) :=
  match console_print (" [bold][cyan]Welcome to peanuts 🥜, Connected to database: [bold]"
                       +:+ dbname w +:+ "[/bold][/cyan][/bold]") w with
  | (Return _, w0) =>
      match session_loop fuel w0 with
      | Some (Raise KeyboardInterrupt, w') =>
          Some (console_print "[green]Thanks for using [bold]peanuts[/bold]!" w')
      | r => r
      end
  | (Raise e, w0) => Some (Raise e, w0)
  end.

End Session.

(** ** An instance of [json] to run the session on examples *)

(** A decoder and an encoder for a fragment of JSON: [null], [true],
    [false], integers, strings without backslash escapes, arrays and
    objects, with the whitespace [json.loads] allows and the separators
    [json.dumps] writes.  Numbers with a fraction or an exponent and
    escaped strings are outside the fragment and the decoder refuses them;
    the encoder is meant for values without floats and writes every float
    as one token.  A [JSONDecodeError] carries the [msg] attribute of the
    error.  The properties below hold for every instance of [Json]; this
    one only serves to run them on concrete input. *)
Module JsonLit.

(** The double quote character, and a text in double quotes. *)
Definition dq : ascii := "034"%char.
Definition quoted (s : string) : string := String dq (s +:+ String dq "").

Definition is_ws (c : ascii) : bool :=
  bool_decide (c ∈ [" "; "009"; "010"; "013"]%char).

Definition is_digit (c : ascii) : bool :=
  ((48 <=? nat_of_ascii c) && (nat_of_ascii c <=? 57))%nat.

Fixpoint skip_ws (s : string) : string :=
  match s with
  | String c s' => if is_ws c then skip_ws s' else s
  | EmptyString => EmptyString
  end.

Fixpoint drop_str (n : nat) (s : string) : string :=
  match n, s with
  | S n', String _ s' => drop_str n' s'
  | _, _ => s
  end.

(** The digits at the head of [s], read after the value [acc]. *)
Fixpoint p_digits (acc : Z) (s : string) : Z * string :=
  match s with
  | String c s' =>
      if is_digit c then p_digits (10 * acc + Z.of_nat (nat_of_ascii c - 48))%Z s'
      else (acc, s)
  | EmptyString => (acc, s)
  end.

(** [0] or a digit sequence without a leading zero. *)
Definition p_natural (s : string) : option (Z * string) :=
  match s with
  | String c s' =>
      if bool_decide (c = "0"%char) then Some (0%Z, s')
      else if is_digit c then Some (p_digits 0 s)
      else None
  | EmptyString => None
  end.

(** An integer; a fraction or an exponent after it is refused. *)
Definition p_int (s : string) : option (Z * string) :=
  r ← match s with
      | String "-" s' => p ← p_natural s'; Some ((- p.1)%Z, p.2)
      | _ => p_natural s
      end;
  match r.2 with
  | String c _ => if bool_decide (c ∈ ["."; "e"; "E"]%char) then None else Some r
  | EmptyString => Some r
  end.

(** The characters of a string up to its closing quote; [acc] is what
    was read, reversed. *)
Fixpoint p_chars (acc : string) (s : string) : option (string * string) :=
  match s with
  | String c s' =>
      if bool_decide (c = dq) then Some (String.rev acc, s')
      else if bool_decide (c = "\"%char) || (nat_of_ascii c <? 32)%nat then None
      else p_chars (String c acc) s'
  | EmptyString => None
  end.

Fixpoint p_value (fuel : nat) (s : string) : option (pyval * string) :=
  match fuel with
  | 0 => None
  | S fuel' =>
      match s with
      | String c s' =>
          if bool_decide (c = "["%char) then
            match skip_ws s' with
            | String "]" r => Some (PyList [], r)
            | s1 => p_items fuel' [] s1
            end
          else if bool_decide (c = "{"%char) then
            match skip_ws s' with
            | String "}" r => Some (PyDict [], r)
            | s1 => p_members fuel' [] s1
            end
          else if bool_decide (c = dq) then
            p ← p_chars "" s'; Some (PyStr p.1, p.2)
          else if String.prefix "null" s then Some (PyNone, drop_str 4 s)
          else if String.prefix "true" s then Some (PyBool true, drop_str 4 s)
          else if String.prefix "false" s then Some (PyBool false, drop_str 5 s)
          else p ← p_int s; Some (PyInt p.1, p.2)
      | EmptyString => None
      end
  end
with p_items (fuel : nat) (acc : list pyval) (s : string) : option (pyval * string) :=
  match fuel with
  | 0 => None
  | S fuel' =>
      p ← p_value fuel' s;
      match skip_ws p.2 with
      | String "," r => p_items fuel' (p.1 :: acc) (skip_ws r)
      | String "]" r => Some (PyList (rev (p.1 :: acc)), r)
      | _ => None
      end
  end
with p_members (fuel : nat) (acc : list (string * pyval)) (s : string)
    : option (pyval * string) :=
  match fuel with
  | 0 => None
  | S fuel' =>
      match s with
      | String c s' =>
          if bool_decide (c = dq) then
            k ← p_chars "" s';
            match skip_ws k.2 with
            | String ":" r =>
                p ← p_value fuel' (skip_ws r);
                match skip_ws p.2 with
                | String "," r' => p_members fuel' (dict_set acc k.1 p.1) (skip_ws r')
                | String "}" r' => Some (PyDict (dict_set acc k.1 p.1), r')
                | _ => None
                end
            | _ => None
            end
          else None
      | EmptyString => None
      end
  end.

(** [json.loads(s)] on the fragment: one value, with whitespace around it
    and nothing else. *)
Definition loads (s : string) : outcome pyval :=
  match p_value (2 * String.length s + 2) (skip_ws s) with
  | Some (v, rest) =>
      if bool_decide (skip_ws rest = "") then Return v
      else Raise (JSONDecodeError "Extra data")
  | None => Raise (JSONDecodeError "Expecting value")
  end.

Fixpoint escape (s : string) : string :=
  match s with
  | String c s' =>
      if bool_decide (c = dq) || bool_decide (c = "\"%char)
      then String "\" (String c (escape s'))
      else String c (escape s')
  | EmptyString => EmptyString
  end.

(** [json.dumps(v)] on the fragment. *)
Fixpoint dumps (v : pyval) : string :=
  match v with
  | PyNone => "null"
  | PyBool true => "true"
  | PyBool false => "false"
  | PyInt z => pretty z
  | PyFloat _ => "NaN"
  | PyStr s => quoted (escape s)
  | PyList l => "[" +:+ Str.join ", " (map dumps l) +:+ "]"
  | PyDict d =>
      "{" +:+
      Str.join ", " (map (fun kv => quoted (escape kv.1) +:+ ": " +:+ dumps kv.2) d)
      +:+ "}"
  end.

Definition json : Json := {| json_loads := loads; json_dumps := dumps |}.

(** A payload reader for examples: the payload is the JSON text of an
    object.  [Schema.write]'s own reader is not among the sources. *)
Definition parse_payload (cfg : list (string * SchemaTypeToPyT)) (payload : string)
  : outcome (list (string * pyval)) :=
  match loads payload with
  | Return (PyDict d) => Return d
  | Return _ => Raise (JSONDecodeError "Expecting object")
  | Raise e => Raise e
  end.

End JsonLit.

(** ** An instance of the console's parameters for the examples *)

(** The names of the tags in the examples are single lower-case words, each
    its own normal form, and none of the examples closes an [@] tag.  The
    properties below hold for every instance of [Rich]. *)
Definition RichLit : Rich :=
  {| Style_normalize := fun style => style; handler_evaluates := fun _ => true |}.

(** ** Notions the statements use *)

(** The prompts [map_insert_to_json] shows for [items], in order. *)
Definition prompts (items : list (string * SchemaTypeToPyT)) : list shown :=
  (fun kt => Prompted (field_prompt kt.1 kt.2)) <$> items.

(** The world once the fields [items] have been prompted for and [more] is
    what remains of the input. *)
Definition after_prompts (items : list (string * SchemaTypeToPyT)) (more : list string)
    (w : World) : World :=
  mkWorld (dbname w) more (screen w ++ prompts items) (schemas w) (disk w).

(** [entries] after the assignments [entries[k] = v] for [kvs], in order. *)
Definition dict_set_all (entries kvs : list (string * pyval)) : list (string * pyval) :=
  foldl (fun d kv => dict_set d kv.1 kv.2) entries kvs.

(** The line [ind] passes for a field of type [tdata] and binds [v]. *)
Definition passes {json : Json} (kt : string * SchemaTypeToPyT) (ind : string) (v : pyval) : Prop :=
  field_entry kt.2 ind = Return v.






(** A valid record, one that [write] accepts: the value of every declared
    field validates against the declared type.  A field that is not
    declared is not checked. *)
Definition valid_record (cfg : list (string * SchemaTypeToPyT))
    (fields : list (string * pyval)) : Prop :=
  Forall (fun kv => forall t, dict_get cfg kv.1 = Some t ->
                              Engine.validate t kv.2 = Return tt) fields.

(** A record all of whose fields are declared. *)
Definition all_declared (cfg : list (string * SchemaTypeToPyT))
    (fields : list (string * pyval)) : Prop :=
  Forall (fun kv => is_Some (dict_get cfg kv.1)) fields.

Definition declared_and_valid (cfg : list (string * SchemaTypeToPyT))
    (kv : string * pyval) : bool :=
  match dict_get cfg kv.1 with
  | Some t => match Engine.validate t kv.2 with Return _ => true | Raise _ => false end
  | None => false
  end.

(** [fields] restricted to the declared and valid keys. *)
Definition restrict (cfg : list (string * SchemaTypeToPyT))
    (fields : list (string * pyval)) : list (string * pyval) :=
  List.filter (declared_and_valid cfg) fields.

(** The rows [select] tabulates for a record. *)
Definition rows (data : list (string * pyval)) : list (list pyval) :=
  (fun kv => [PyStr kv.1; kv.2]) <$> data.

(** The number of lines still to come on standard input. *)
Definition pending (w : World) : nat := length (stdin w).

(** A computation that leaves no more pending input than it found. *)
Definition consumes {A} (m : M A) : Prop :=
  forall w, pending (m w).2 <= pending w.

(** The world after [run_session] has prompted for a command and read
    [rest] of the input is left. *)
Definition after_command_prompt (rest : list string) (w : World) : World :=
  set_stdin rest (show (Prompted "[bold][green]#[/green][/bold] ") w).

(** The arguments [run_session] passes on, given the words of a command. *)
Definition command_args (vals : list string) : list string :=
  drop 1 (Str.strip <$> filter (fun arg => arg ≠ " ") vals).

(** What the terminal has shown apart from the prompts. *)
Definition output (w : World) : list shown :=
  List.filter (fun x => match x with Prompted _ => false | _ => true end) (screen w).

(** A text with no whitespace character in it. *)
Fixpoint spaceless (s : string) : bool :=
  match s with
  | EmptyString => true
  | String c s' => negb (Str.isspace c) && spaceless s'
  end.

(** The first and the last thing [run_session] prints. *)
Definition welcome_text (w : World) : string :=
  " [bold][cyan]Welcome to peanuts 🥜, Connected to database: [bold]"
  +:+ dbname w +:+ "[/bold][/cyan][/bold]".

Definition welcome (w : World) : shown := Printed (welcome_text w).

(** What [run_session] comes to when [r] is what follows the welcome: if
    the console cannot render the welcome, with the name of the database
    in it, the session ends there. *)
Definition greeted {rich : Rich} (w : World) (r : outcome unit * World)
    : outcome unit * World :=
  if Markup.renders (welcome_text w) then r else (Raise MarkupError, w).

Definition goodbye : shown := Printed "[green]Thanks for using [bold]peanuts[/bold]!".

(** What [run_command] prints for a word that is no command. *)
Definition invalid_command : shown :=
  Printed "[red]Invalid Command, use [bold]!help[/bold] to get a list of available commands.".

(** The words [run_command] knows. *)
Definition commands : list string :=
  ["!create_schema"; "!drop_schema"; "!load_cache"; "!display_schema"; "insert"; "select";
   "!q"; "!quit"; ":q"; ":quit"].

(** The world after [n] continuation prompts of [run_session], with [rest]
    of the input left. *)
Definition after_continuations (n : nat) (rest : list string) (w : World) : World :=
  mkWorld (dbname w) rest
    (screen w ++ replicate n (Prompted "[bold][green]>[/green][/bold] "))
    (schemas w) (disk w).

(** The [except AssertionError] clause of [run_session]. *)
Definition assertion_handler {rich : Rich} (e : exn) : option (M unit) :=
  match e with
  | AssertionError msg => Some (console_print ("[red]" +:+ msg))
  | _ => None
  end.

Definition is_assertion (e : exn) : bool :=
  match e with AssertionError _ => true | _ => false end.

Definition is_interrupt (e : exn) : bool :=
  match e with KeyboardInterrupt => true | _ => false end.

(** ** Concrete input *)

(** The schema of the spec's scenarios, [user name STRING age INTEGER], in
    a database with no record yet, and the lines still to be typed. *)
Definition user_configs : list (string * SchemaTypeToPyT) :=
  [("name", STRING); ("age", INTEGER)].

Definition demo (lines : list string) : World :=
  mkWorld "db" lines [] {["user" := mkSchema user_configs ∅]} {["user" := ∅]}.

(** The record of the spec's scenario, and the same database with that
    record on disk and a cold cache. *)
Definition ann : list (string * pyval) := [("name", PyStr "Ann"); ("age", PyInt 30)].

Definition ann_payload : string :=
  "{" +:+ JsonLit.quoted "name" +:+ ": " +:+ JsonLit.quoted "Ann" +:+ ", "
      +:+ JsonLit.quoted "age" +:+ ": 30}".

Definition cold (lines : list string) : World :=
  mkWorld "db" lines [] {["user" := mkSchema user_configs ∅]}
    {["user" := {["u1" := ann_payload]}]}.

(** A database whose one schema has an array field. *)
Definition tagged (lines : list string) : World :=
  mkWorld "db" lines [] {["tags" := mkSchema [("xs", A_INTEGER)] ∅]} {["tags" := ∅]}.

(** A schema of two STRING fields. *)
Definition note_configs : list (string * SchemaTypeToPyT) :=
  [("title", STRING); ("body", STRING)].

(** A database whose one schema has two fields that are decoded. *)
Definition pair_configs : list (string * SchemaTypeToPyT) :=
  [("x", INTEGER); ("y", INTEGER)].

Definition paired (lines : list string) : World :=
  mkWorld "db" lines [] {["pair" := mkSchema pair_configs ∅]} {["pair" := ∅]}.

(** A record of the schema [user] with a field that is not declared. *)
Definition nicknamed : list (string * pyval) := [("name", PyStr "Ann"); ("nick", PyStr "A")].

Definition nicknamed_payload : string :=
  "{" +:+ JsonLit.quoted "name" +:+ ": " +:+ JsonLit.quoted "Ann" +:+ ", "
      +:+ JsonLit.quoted "nick" +:+ ": " +:+ JsonLit.quoted "A" +:+ "}".

(** * Properties *)

(** A membership in a literal list that evaluates to false. *)
Ltac refute_elem H :=
  exfalso;
  repeat (apply elem_of_cons in H as [H|H]; [discriminate H|]);
  by apply elem_of_nil in H.

(** ** The string methods and the example decoder, run *)

Example split_cmd : Str.split (Str.strip_chars " ;" (Str.strip "  insert  user u1 ;")) = ["insert"; "user"; "u1"].
Proof. reflexivity. Qed.

Example endswith_semi : Str.endswith "select user u1;" ";" = true /\ Str.endswith "select" ";" = false.
Proof. split; reflexivity. Qed.

Example join_sp : Str.join " " ["a"; "b"; "c"] = "a b c".
Proof. reflexivity. Qed.

Example loads_int : JsonLit.loads " 30 " = Return (PyInt 30).
Proof. reflexivity. Qed.

Example loads_neg : JsonLit.loads "-7" = Return (PyInt (-7)).
Proof. reflexivity. Qed.

Example loads_true : JsonLit.loads "true" = Return (PyBool true).
Proof. reflexivity. Qed.

Example loads_bare_word : JsonLit.loads "thirty" = Raise (JSONDecodeError "Expecting value").
Proof. reflexivity. Qed.

Example loads_leading_zero : JsonLit.loads "01" = Raise (JSONDecodeError "Extra data").
Proof. reflexivity. Qed.

Example loads_string : JsonLit.loads (JsonLit.quoted "thirty") = Return (PyStr "thirty").
Proof. reflexivity. Qed.

Example loads_array :
  JsonLit.loads "[1, [true, null], 2 ]" = Return (PyList [PyInt 1; PyList [PyBool true; PyNone]; PyInt 2]).
Proof. reflexivity. Qed.

Example loads_trailing_comma : JsonLit.loads "[1,]" = Raise (JSONDecodeError "Expecting value").
Proof. reflexivity. Qed.

Example dumps_loads_object :
  JsonLit.loads (JsonLit.dumps (PyDict [("name", PyStr "Ann"); ("age", PyInt 30)]))
  = Return (PyDict [("name", PyStr "Ann"); ("age", PyInt 30)]).
Proof. vm_compute. reflexivity. Qed.

(** ** Validation of one decoded value *)

Example validate_int : validate INTEGER (PyInt 30) = Return tt.
Proof. reflexivity. Qed.

Example validate_float_int :
  validate FLOAT (PyInt 30) = Raise (DataTypeConflictException_ "Expected float, got <class 'int'>").
Proof. reflexivity. Qed.

Example validate_arr_bad :
  validate A_INTEGER (PyList [PyInt 1; PyStr "a"; PyNone])
  = Raise (DataTypeConflictException_ "Expected <class 'int'>, got <class 'str'>").
Proof. reflexivity. Qed.

Example validate_arr_not_iterable :
  validate A_INTEGER (PyInt 5) = Raise (TypeError "'int' object is not iterable").
Proof. reflexivity. Qed.

(** [verify_array] returns, and returns [None], exactly when every item is
    an instance of [t]. *)
Lemma verify_array_loop_all (t : pytype) (items : list pyval) :
  Forall (fun item => isinstance item t = true) items ->
  verify_array_loop t items = Return PyNone.
Proof.
  induction 1 as [|item rest Hitem _ IH]; simpl; [done|].
  by rewrite Hitem.
Qed.

(** On the first item that is not an instance of [t] the loop stops with
    the conflict of [t] and that item's class. *)
Lemma verify_array_loop_first_mismatch (t : pytype) (pre post : list pyval) (item : pyval) :
  Forall (fun x => isinstance x t = true) pre ->
  isinstance item t = false ->
  verify_array_loop t (pre ++ item :: post)
  = Raise (DataTypeConflictException (str_type t) (str_type (type_ item))).
Proof.
  intros Hpre Hitem. induction Hpre as [|x pre Hx _ IH]; simpl.
  - by rewrite Hitem.
  - by rewrite Hx.
Qed.

Lemma verify_array_loop_cases (t : pytype) (items : list pyval) :
  verify_array_loop t items = Return PyNone \/
  exists msg, verify_array_loop t items = Raise (DataTypeConflictException_ msg).
Proof.
  induction items as [|item rest IH]; simpl; [by left|].
  destruct (isinstance item t); simpl; [done|]. right. by eexists.
Qed.

(** [assert verify_array(t, data)] never passes: when the loop finds no
    conflict the function returns [None], which is not truthy. *)
Lemma assert_verify_array_raises (t : pytype) (data : pyval) :
  exists e, assert_ (verify_array t data) = Raise e.
Proof.
  unfold assert_, verify_array.
  destruct (iterate data) as [items|e]; simpl; [|by eexists].
  destruct (verify_array_loop_cases t items) as [-> | [msg ->]]; simpl; by eexists.
Qed.

Lemma validate_array_raises (tdata : SchemaTypeToPyT) (data : pyval) :
  Engine.is_array tdata = true -> exists e, validate tdata data = Raise e.
Proof.
  destruct tdata; try discriminate; intros _; apply assert_verify_array_raises.
Qed.

(** C1 (the code departs from the claim).  An array field whose every
    element matches the base type is still refused: [verify_array] returns
    [None] and the [assert] on its result raises [AssertionError].  Shown
    on [[1, 2]] for an integer array, on a one-element list for each of the
    other array types, and on the empty list. *)
Theorem validate_array_all_match_raises :
  validate A_INTEGER (PyList [PyInt 1; PyInt 2]) = Raise (AssertionError "") /\
  validate A_STRING (PyList [PyStr "a"]) = Raise (AssertionError "") /\
  validate A_FLOAT (PyList [PyFloat 1.5]) = Raise (AssertionError "") /\
  validate A_BOOL (PyList [PyBool true]) = Raise (AssertionError "") /\
  validate A_INTEGER (PyList []) = Raise (AssertionError "").
Proof. repeat split; reflexivity. Qed.

(** C2 (counterexample).  A boolean is accepted for an INTEGER field,
    although its runtime type, [bool], is not the type the field expects. *)
Lemma validate_integer_accepts_bool :
  validate INTEGER (PyBool true) = Return tt /\
  type_ (PyBool true) <> Engine.base_type INTEGER.
Proof. split; [reflexivity | discriminate]. Qed.

(** The three scalar types that are decoded and checked. *)
Lemma validate_scalar (tdata : SchemaTypeToPyT) (data : pyval) :
  tdata ∈ [INTEGER; FLOAT; BOOL] ->
  validate tdata data =
    if isinstance data (Engine.base_type tdata) then Return tt
    else Raise (DataTypeConflictException (type_name (Engine.base_type tdata))
                                          (str_type (type_ data))).
Proof.
  intros Ht. unfold validate.
  destruct tdata; try (by refute_elem Ht); simpl;
    by destruct (isinstance data _).
Qed.

(** ** What the console renders *)

Lemma append_cons (x : ascii) (a b : string) : String x a +:+ b = String x (a +:+ b).
Proof. reflexivity. Qed.

Lemma lacks_app (c : ascii) (a b : string) :
  Str.lacks c (a +:+ b) = Str.lacks c a && Str.lacks c b.
Proof.
  induction a as [|x a IH]; [done|]. rewrite append_cons. simpl.
  by rewrite IH, andb_assoc.
Qed.

Lemma scan_app (st : Markup.scanner) (a b : string) :
  Markup.scan st (a +:+ b) = Markup.scan (Markup.scan st a) b.
Proof.
  revert st. induction a as [|x a IH]; intros st; [done|].
  rewrite append_cons. simpl. apply IH.
Qed.

(** A text with no open bracket in it, read outside a tag, starts no tag
    and ends none. *)
Lemma scan_bracketless (st : Markup.scanner) (u : string) :
  Str.lacks "[" u = true ->
  Markup.candidate st = None ->
  exists run, Markup.scan st u = Markup.mkScanner run None (Markup.found st).
Proof.
  revert st. induction u as [|x u IH]; intros [run cand tags] Hu Hc; simpl in Hc |- *; subst.
  { by eexists. }
  simpl in Hu. apply andb_true_iff in Hu as [Hx Hu]. apply negb_true_iff in Hx.
  unfold Markup.step. simpl. rewrite Hx.
  by apply (IH (Markup.mkScanner _ _ _)).
Qed.

(** A text with no slash in it adds no tag with a slash in it. *)
Lemma scan_slashless (st : Markup.scanner) (s : string) :
  Str.lacks "/" s = true ->
  match Markup.candidate st with
  | Some (_, body) => Str.lacks "/" body = true
  | None => True
  end ->
  exists new,
    Markup.found (Markup.scan st s) = Markup.found st ++ new /\
    Forall (fun t => Str.lacks "/" t.2 = true) new.
Proof.
  revert st. induction s as [|x s IH]; intros [run cand tags] Hs Hc; simpl in Hc |- *.
  { exists []. by rewrite app_nil_r. }
  simpl in Hs. apply andb_true_iff in Hs as [Hx Hs]. apply negb_true_iff in Hx.
  unfold Markup.step. simpl.
  destruct (bool_decide (x = "["%char)) eqn:Hopen.
  { apply (IH (Markup.mkScanner _ _ _)); done. }
  destruct cand as [[esc body]|]; [|by apply (IH (Markup.mkScanner _ _ _))].
  destruct body as [|b body].
  { apply (IH (Markup.mkScanner _ _ _)); [done|]. simpl.
    destruct (Markup.tag_start x); [|done]. simpl. by rewrite Hx. }
  destruct (bool_decide (x = "]"%char)) eqn:Hclose.
  - destruct (IH (Markup.mkScanner 0 None (tags ++ [(esc, String b body)])) Hs I)
      as (new & Hfound & Hnew).
    exists ((esc, String b body) :: new). split.
    + rewrite Hfound. simpl. by rewrite <- app_assoc.
    + by constructor.
  - apply (IH (Markup.mkScanner _ _ _)); [done|]. simpl.
    rewrite lacks_app, andb_assoc. simpl in Hc. rewrite Hc. simpl. by rewrite Hx.
Qed.

Lemma action_of_slashless (text : string) :
  Str.lacks "/" text = true -> exists n p, Markup.action_of text = Markup.Opening n p.
Proof.
  intros Ht. unfold Markup.action_of.
  destruct text as [|c text]; [by eauto|].
  simpl in Ht. apply andb_true_iff in Ht as [Hc _]. apply negb_true_iff in Hc.
  simpl. destruct (bool_decide (c = "="%char)); simpl; [by eauto|]. rewrite Hc. by eauto.
Qed.

Lemma unescaped_app (l1 l2 : list (nat * string)) :
  Markup.unescaped (l1 ++ l2) = Markup.unescaped l1 ++ Markup.unescaped l2.
Proof. unfold Markup.unescaped. by rewrite List.filter_app, !fmap_app. Qed.

Lemma unescaped_slashless (l : list (nat * string)) :
  Forall (fun t => Str.lacks "/" t.2 = true) l ->
  Forall (fun a => exists n p, a = Markup.Opening n p) (Markup.unescaped l).
Proof.
  unfold Markup.unescaped.
  induction 1 as [|[esc text] l Ht _ IH]; simpl; [constructor|].
  destruct (Nat.even esc); simpl; [|done].
  constructor; [|done]. by apply action_of_slashless.
Qed.

(** The actions of a text are found by running the scanner; on a text
    that is written out they are a list that is written out. *)
Ltac scan_text :=
  match goal with
  | |- context [Markup.scan ?st ?s] =>
      let r := eval vm_compute in (Markup.scan st s) in
      change (Markup.scan st s) with r
  end.

Ltac render_actions :=
  repeat match goal with
  | |- context [Markup.action_of ?t] =>
      let r := eval vm_compute in (Markup.action_of t) in
      change (Markup.action_of t) with r
  end;
  repeat (simpl;
          rewrite ?String.eqb_refl;
          try match goal with
              | |- context [String.eqb ?a ?b] => destruct (String.eqb a b)
              end);
  try reflexivity.

Ltac render_fixed :=
  unfold Markup.renders, Markup.actions;
  repeat scan_text;
  match goal with
  | |- context [Markup.unescaped ?l] =>
      let r := eval vm_compute in (Markup.unescaped l) in
      change (Markup.unescaped l) with r
  end;
  repeat (simpl; rewrite ?String.eqb_refl);
  try reflexivity.

Section MarkupProperties.

Context {rich : Rich}.

Lemma render_app (stack : list Markup.Tag) (l1 l2 : list Markup.action) :
  Markup.render stack (l1 ++ l2)
  = Markup.render stack l1 ≫= fun stack' => Markup.render stack' l2.
Proof.
  revert stack. induction l1 as [|a l1 IH]; intros stack; [done|].
  destruct a as [n p|style|]; simpl.
  - apply IH.
  - destruct (Markup.pop_style _ stack) as [[t below]|]; simpl; [|done].
    destruct (Markup.closes t); [apply IH|done].
  - destruct (Markup.pop stack) as [[t below]|]; simpl; [|done].
    destruct (Markup.closes t); [apply IH|done].
Qed.

(** Opening tags never fail. *)
Lemma render_openings (stack : list Markup.Tag) (l : list Markup.action) :
  Forall (fun a => exists n p, a = Markup.Opening n p) l ->
  is_Some (Markup.render stack l).
Proof.
  intros Hl. revert stack.
  induction Hl as [|a l (n & p & ->) _ IH]; intros stack; simpl; [by eexists|].
  apply IH.
Qed.

(** A text that renders and ends outside a tag still renders when a text
    with no slash in it, so with no closing tag, is put after it. *)
Lemma renders_app_slashless (pre rest : string) :
  Markup.renders pre = true ->
  Markup.candidate (Markup.scan Markup.start pre) = None ->
  Str.lacks "/" rest = true ->
  Markup.renders (pre +:+ rest) = true.
Proof.
  unfold Markup.renders, Markup.actions. intros Hpre Hcand Hrest.
  rewrite scan_app.
  destruct (scan_slashless (Markup.scan Markup.start pre) rest Hrest) as (new & -> & Hnew).
  { by rewrite Hcand. }
  rewrite unescaped_app, render_app.
  destruct (Markup.render [] _) as [stack|]; [|done]. simpl.
  by destruct (render_openings stack _ (unescaped_slashless _ Hnew)) as [? ->].
Qed.

Lemma renders_invalid_input : Markup.renders "[red]Invalid Input." = true.
Proof. render_fixed. Qed.

Lemma renders_invalid_command :
  Markup.renders
    "[red]Invalid Command, use [bold]!help[/bold] to get a list of available commands."
  = true.
Proof. render_fixed. Qed.

Lemma renders_goodbye :
  Markup.renders "[green]Thanks for using [bold]peanuts[/bold]!" = true.
Proof. render_fixed. Qed.

Lemma renders_display_usage :
  Markup.renders (display_syntax "!display_schema" "!display_schema <schema_name>") = true.
Proof. render_fixed. Qed.

Lemma console_print_renders (text : string) (w : World) :
  Markup.renders text = true ->
  console_print text w = (Return tt, show (Printed text) w).
Proof. intros Ht. unfold console_print. by rewrite Ht. Qed.


(** A text with no open bracket in it between two written-out texts. *)
Lemma scan_around (pre u post : string) :
  Str.lacks "[" u = true ->
  Markup.candidate (Markup.scan Markup.start pre) = None ->
  exists run,
    Markup.scan Markup.start (pre +:+ u +:+ post)
    = Markup.scan (Markup.mkScanner run None (Markup.found (Markup.scan Markup.start pre))) post.
Proof.
  intros Hu Hpre. rewrite !scan_app.
  destruct (scan_bracketless _ u Hu Hpre) as [run ->]. by exists run.
Qed.


(** The welcome to a database whose name has no open bracket in it. *)
Lemma renders_welcome (w : World) :
  Str.lacks "[" (dbname w) = true -> Markup.renders (welcome_text w) = true.
Proof.
  intros Hn. unfold Markup.renders, Markup.actions, welcome_text.
  destruct (scan_around " [bold][cyan]Welcome to peanuts 🥜, Connected to database: [bold]"
              (dbname w) "[/bold][/cyan][/bold]" Hn eq_refl) as [run ->].
  repeat scan_text. unfold Markup.unescaped. simpl List.filter.
  destruct (Nat.even run); render_actions.
Qed.

(** After a welcome that renders, [run_session] comes to what follows
    it. *)
Lemma greeted_bracketless (w : World) (r : outcome unit * World) :
  Str.lacks "[" (dbname w) = true -> greeted w r = r.
Proof. intros Hn. unfold greeted. by rewrite renders_welcome. Qed.

(** The prompts: the two of [run_session], and that of a field whose name
    has no open bracket in it. *)
Lemma renders_prompts :
  Markup.renders "[bold][green]#[/green][/bold] " = true /\
  Markup.renders "[bold][green]>[/green][/bold] " = true.
Proof. split; render_fixed. Qed.

Lemma renders_field_prompt (key : string) (tdata : SchemaTypeToPyT) :
  Str.lacks "[" key = true -> Markup.renders (field_prompt key tdata) = true.
Proof.
  intros Hkey. unfold Markup.renders, Markup.actions, field_prompt.
  destruct (scan_around "[cyan][bold]" key
              (" (type: " +:+ str_tdata tdata +:+ "): [/bold][/cyan]") Hkey eq_refl)
    as [run ->].
  destruct tdata; render_fixed.
Qed.

End MarkupProperties.

(** ** Prompting for the fields: [map_insert_to_json] *)

Lemma dict_set_fresh (d : list (string * pyval)) (key : string) (value : pyval) :
  key ∉ d.*1 -> dict_set d key value = d ++ [(key, value)].
Proof.
  induction d as [|[k v] d IH]; simpl; [done|].
  intros Hk. apply not_elem_of_cons in Hk as [Hne Hk].
  rewrite bool_decide_eq_false_2 by done. by rewrite IH.
Qed.

Lemma dict_set_all_fresh (entries : list (string * pyval)) (keys : list string)
    (values : list pyval) :
  length keys = length values ->
  NoDup (entries.*1 ++ keys) ->
  dict_set_all entries (zip keys values) = entries ++ zip keys values.
Proof.
  revert entries values.
  induction keys as [|k keys IH]; intros entries [|v values] Hlen Hnd;
    simplify_eq/=; [by rewrite app_nil_r|].
  unfold dict_set_all in *. simpl.
  apply NoDup_app in Hnd as Hnd'. destruct Hnd' as (_ & Hdisj & _).
  rewrite dict_set_fresh by (intros Hin; apply (Hdisj k Hin); left).
  rewrite IH; [by rewrite <- app_assoc|done|].
  rewrite fmap_app. simpl. by rewrite <- app_assoc.
Qed.

Section SessionProperties.

Context {rich : Rich} {json : Json}.
Variable parse_payload :
  list (string * SchemaTypeToPyT) -> string -> outcome (list (string * pyval)).

(** The loop over a prefix [pre] of the fields whose lines all pass. *)
Lemma map_insert_loop_app pre rest lines values entries more w :
  Forall3 passes pre lines values ->
  stdin w = lines ++ more ->
  map_insert_loop (pre ++ rest) entries w
  = map_insert_loop rest (dict_set_all entries (zip pre.*1 values))
      (after_prompts pre more w).
Proof.
  intros Hpass. revert entries w.
  induction Hpass as [|[key tdata] ind v pre lines values Hp _ IH]; intros entries w Hin.
  - simpl in *. unfold after_prompts, prompts. simpl. rewrite app_nil_r.
    destruct w; simpl in *; by subst.
  - simpl. unfold bind at 1. unfold console_input. rewrite Hin. simpl.
    unfold bind at 1, lift. unfold passes in Hp. simpl in Hp. rewrite Hp.
    rewrite IH by done.
    unfold after_prompts, prompts. simpl. by rewrite <- app_assoc.
Qed.

(** The loop stops at the first field whose line does not pass. *)
Lemma map_insert_loop_raise pre key tdata post lines values ind e entries more w :
  Forall3 passes pre lines values ->
  field_entry tdata ind = Raise e ->
  stdin w = lines ++ ind :: more ->
  map_insert_loop (pre ++ (key, tdata) :: post) entries w
  = (Raise e, after_prompts (pre ++ [(key, tdata)]) more w).
Proof.
  intros Hpass He Hin.
  rewrite (map_insert_loop_app pre _ lines values entries (ind :: more)) by done.
  simpl. unfold bind at 1. unfold console_input. simpl.
  unfold bind, lift. rewrite He.
  unfold after_prompts, prompts. simpl. by rewrite fmap_app, app_assoc.
Qed.


(** C9.  For a configuration of scalar fields and lines that all pass,
    [map_insert_to_json] returns [json.dumps] of the mapping that binds
    the declared field names, in declaration order, to the values: the
    line itself for a STRING field, the decoded value for the others.
    The field names are distinct, as the keys of a dict are.  (The proof
    does not use that the fields are scalar; no line passes for an array
    field, see [validate_array_raises].) *)
Theorem map_insert_to_json_scalars items lines values more w :
  NoDup items.*1 ->
  Forall (fun kt => Engine.is_array kt.2 = false) items ->
  Forall3 passes items lines values ->
  stdin w = lines ++ more ->
  map_insert_to_json items w
  = (Return (json_dumps (PyDict (zip items.*1 values))), after_prompts items more w) /\
  (zip items.*1 values).*1 = items.*1 /\
  Forall3 (fun kt ind v =>
             if bool_decide (kt.2 = STRING) then v = PyStr ind
             else json_loads ind = Return v) items lines values.
Proof.
  intros Hnd _ Hpass Hin.
  assert (Hlen : length items.*1 = length values).
  { rewrite length_fmap. by apply Forall3_length_lr in Hpass. }
  split; [|split].
  - unfold map_insert_to_json, bind.
    pose proof (map_insert_loop_app items [] lines values [] more w Hpass Hin) as Hloop.
    rewrite app_nil_r in Hloop. rewrite Hloop. simpl. unfold ret.
    by rewrite dict_set_all_fresh.
  - apply fst_zip. lia.
  - clear Hnd Hin Hlen. induction Hpass as [|[key tdata] ind v ? ? ? Hp ? IH];
      constructor; [|done].
    unfold passes, field_entry in Hp. simpl in *.
    case_bool_decide; [by simplify_eq|].
    destruct (json_loads ind) as [data|e]; simpl in Hp; [|done].
    destruct (validate tdata data); by simplify_eq/=.
Qed.

(** ** [run_command] *)

(** C10.  [!display_schema] with an argument count other than one shows
    the correct-usage message and returns; nothing but the terminal
    changes: the schemas with their caches, the record files and the
    pending input are as before. *)
Theorem display_schema_wrong_usage restargs w :
  length restargs <> 1 ->
  run_command parse_payload "!display_schema" restargs w
  = (Return tt,
     show (Printed (display_syntax "!display_schema" "!display_schema <schema_name>")) w) /\
  let w' := (run_command parse_payload "!display_schema" restargs w).2 in
  schemas w' = schemas w /\ disk w' = disk w /\ stdin w' = stdin w.
Proof.
  intros Hlen.
  assert (Hrun : run_command parse_payload "!display_schema" restargs w
                 = (Return tt,
                    show (Printed (display_syntax "!display_schema"
                                     "!display_schema <schema_name>")) w)).
  { unfold run_command. simpl. rewrite (bool_decide_eq_true_2 _ Hlen).
    apply console_print_renders, renders_display_usage. }
  by rewrite Hrun.
Qed.



(** Prompting touches the terminal and the pending input only. *)
Lemma map_insert_loop_frame items entries w :
  schemas (map_insert_loop items entries w).2 = schemas w /\
  disk (map_insert_loop items entries w).2 = disk w.
Proof.
  revert entries w. induction items as [|[key tdata] items IH]; intros entries w; [done|].
  simpl. unfold bind at 1 3. unfold console_input.
  destruct (stdin w) as [|ind more]; [done|].
  unfold bind, lift. destruct (field_entry tdata ind) as [v|e]; [|done].
  destruct (IH (dict_set entries key v)
               (set_stdin more (show (Prompted (field_prompt key tdata)) w))) as [-> ->].
  done.
Qed.

Lemma map_insert_to_json_frame items w :
  schemas (map_insert_to_json items w).2 = schemas w /\
  disk (map_insert_to_json items w).2 = disk w.
Proof.
  unfold map_insert_to_json, bind.
  pose proof (map_insert_loop_frame items [] w) as Hframe.
  by destruct (map_insert_loop items [] w) as [[entries|e] w1].
Qed.

(** [insert] with a schema name and an identifier runs the prompted
    insert under the two handlers. *)
Lemma run_command_insert sname id sc w :
  schemas w !! sname = Some sc ->
  run_command parse_payload "insert" [sname; id] w
  = match insert_prompted parse_payload sname [sname; id] w with
    | (Raise (DataTypeConflictException_ msg), w') => console_print ("[red]" +:+ msg) w'
    | (Raise (JSONDecodeError _), w') => console_print "[red]Invalid Input." w'
    | r => r
    end.
Proof.
  intros Hsc. unfold run_command. simpl.
  unfold bind at 1. simpl. unfold bind at 1. unfold assert_schema. rewrite Hsc.
  unfold try_except.
  destruct (insert_prompted parse_payload sname [sname; id] w) as [[[]|e] w']; [done|].
  by destruct e.
Qed.

(** When the prompting raises, the prompted insert raises the same, and
    nothing is written. *)
Lemma insert_prompted_prompt_raise sname restargs sc e w w' :
  schemas w !! sname = Some sc ->
  map_insert_to_json (configs sc) w = (Raise e, w') ->
  insert_prompted parse_payload sname restargs w = (Raise e, w').
Proof.
  intros Hsc Hmap. unfold insert_prompted, bind at 1.
  unfold Engine.schemas_getitem at 1. rewrite Hsc.
  unfold bind at 1. by rewrite Hmap.
Qed.

(** However the prompted insert fails, the schemas, their caches and the
    record files are as before. *)
Lemma insert_prompted_raise_frame sname id sc e w w' :
  schemas w !! sname = Some sc ->
  insert_prompted parse_payload sname [sname; id] w = (Raise e, w') ->
  schemas w' = schemas w /\ disk w' = disk w.
Proof.
  intros Hsc. unfold insert_prompted, bind at 1.
  unfold Engine.schemas_getitem at 1. rewrite Hsc.
  unfold bind at 1.
  pose proof (map_insert_to_json_frame (configs sc) w) as [Hs Hd].
  destruct (map_insert_to_json (configs sc) w) as [[items|e0] w1]; simpl in Hs, Hd;
    [|by intros [= <- <-]].
  unfold bind at 1. unfold Engine.schemas_getitem at 1. rewrite Hs, Hsc.
  unfold bind at 1. simpl.
  unfold Engine.Schema_write, bind at 1. unfold Engine.schemas_getitem at 1.
  rewrite Hs, Hsc. unfold bind at 1, lift.
  destruct (parse_payload (configs sc) items) as [fields|e1]; [|by intros [= <- <-]].
  unfold Engine.Schema_write_fields, bind at 1. unfold Engine.schemas_getitem at 1.
  rewrite Hs, Hsc. unfold bind at 1.
  destruct (Engine.validate_fields (configs sc) fields) as [[]|e2]; [|by intros [= <- <-]].
  unfold bind at 1. unfold Engine.persist.
  destruct (Engine.safe_identifier id); [|by intros [= <- <-]].
  unfold Engine.Cache_put, bind.
  unfold Engine.schemas_getitem. simpl. rewrite Hs, Hsc. done.
Qed.

(** The conflict the loop of [verify_array] raises names the expected
    class and the class of an item. *)
Lemma verify_array_loop_conflict (t : pytype) (items : list pyval) (e : exn) :
  verify_array_loop t items = Raise e ->
  exists ty, e = DataTypeConflictException (str_type t) (str_type ty).
Proof.
  induction items as [|item items IH]; simpl; [done|].
  destruct (isinstance item t); simpl; [done|]. intros [= <-]. by eexists.
Qed.

(** The report of a conflict that the check of a typed line raises holds
    type names only, and the console renders it. *)
Lemma validate_conflict_renders tdata data msg :
  validate tdata data = Raise (DataTypeConflictException_ msg) ->
  Markup.renders ("[red]" +:+ msg) = true.
Proof.
  intros Hv. apply renders_app_slashless; [render_fixed|done|].
  destruct tdata; unfold validate in Hv; simpl in Hv;
    try (destruct (isinstance data _); simpl in Hv; [done|];
         injection Hv as <-; by destruct (type_ data));
    try done;
    unfold assert_, verify_array in Hv;
    (destruct (iterate data) as [items|e0] eqn:Hit; simpl in Hv;
     [|destruct data; simpl in Hit; by simplify_eq]);
    (destruct (verify_array_loop _ items) as [v|e1] eqn:Hloop; simpl in Hv;
     [by destruct (truthy v)|]);
    apply verify_array_loop_conflict in Hloop as [ty ->];
    injection Hv as <-; by destruct ty.
Qed.

(** C4.  A type conflict raised while the prompted insert validates and
    writes carries the message [Expected e, got g] built from the expected
    and the actual type, and [insert] prints exactly that message and
    returns; the print shows the message when the console renders it, as
    it does every message the check of a typed line builds, which holds
    type names only.  In particular a line that decodes to a string, typed
    for an INTEGER field, is reported as expected [int], got
    [<class 'str'>]. *)
Theorem type_conflict_surfaced sname id sc w :
  schemas w !! sname = Some sc ->
  (forall exp got w',
      insert_prompted parse_payload sname [sname; id] w
      = (Raise (DataTypeConflictException exp got), w') ->
      run_command parse_payload "insert" [sname; id] w
      = if Markup.renders ("[red]Expected " +:+ exp +:+ ", got " +:+ got)
        then (Return tt, show (Printed ("[red]Expected " +:+ exp +:+ ", got " +:+ got)) w')
        else (Raise MarkupError, w')) /\
  (forall pre key post lines values ind s more,
      configs sc = pre ++ (key, INTEGER) :: post ->
      Forall3 passes pre lines values ->
      json_loads ind = Return (PyStr s) ->
      stdin w = lines ++ ind :: more ->
      run_command parse_payload "insert" [sname; id] w
      = (Return tt,
         show (Printed "[red]Expected int, got <class 'str'>")
           (after_prompts (pre ++ [(key, INTEGER)]) more w))) /\
  (forall tdata data msg,
      validate tdata data = Raise (DataTypeConflictException_ msg) ->
      Markup.renders ("[red]" +:+ msg) = true).
Proof.
  intros Hsc. split; [|split].
  - intros exp got w' Hraise.
    by rewrite (run_command_insert sname id sc w Hsc), Hraise.
  - intros pre key post lines values ind s more Hcfg Hpass Hloads Hin.
    rewrite (run_command_insert sname id sc w Hsc).
    rewrite (insert_prompted_prompt_raise sname [sname; id] sc
               (DataTypeConflictException "int" (str_type str_)) w
               (after_prompts (pre ++ [(key, INTEGER)]) more w) Hsc).
    { apply console_print_renders. render_fixed. }
    unfold map_insert_to_json, bind. rewrite Hcfg.
    rewrite (map_insert_loop_raise pre key INTEGER post lines values ind
               (DataTypeConflictException "int" (str_type str_)) [] more w);
      [done|done| |done].
    unfold field_entry. simpl. by rewrite Hloads.
  - apply validate_conflict_renders.
Qed.

(** ** Loading caches by name *)




(** ** Writing a record and reading it back *)

Lemma validate_fields_valid cfg fields :
  valid_record cfg fields -> Engine.validate_fields cfg fields = Return tt.
Proof.
  induction 1 as [|[k v] fields Hv _ IH]; simpl in *; [done|].
  destruct (dict_get cfg k) as [t|]; [|done]. by rewrite (Hv t).
Qed.

Lemma restrict_declared cfg fields :
  valid_record cfg fields -> all_declared cfg fields -> restrict cfg fields = fields.
Proof.
  intros Hvalid Hdecl. induction Hdecl as [|[k v] fields [t Hk] _ IH]; [done|].
  apply Forall_cons in Hvalid as [Hv Hvalid]. simpl in *.
  unfold declared_and_valid. simpl. rewrite Hk, (Hv t Hk). f_equal. by apply IH.
Qed.

(** A read with a cold cache takes the record from its file. *)
Lemma read_cold sname id sc text fields w :
  schemas w !! sname = Some sc ->
  cache sc !! id = None ->
  Engine.safe_identifier id = true ->
  disk w !! sname ≫= (fun dir => dir !! id) = Some text ->
  Engine.read_record text = Return fields ->
  Engine.Schema_read sname id w
  = (Return fields,
     set_schemas (<[sname := mkSchema (configs sc) (<[id := fields]> (cache sc))]> (schemas w)) w).
Proof.
  intros Hsc Hcache Hsafe Hdisk Htext.
  unfold Engine.Schema_read, Engine.Cache_get, bind at 1.
  unfold Engine.schemas_getitem at 1. rewrite Hsc, Hcache.
  unfold bind at 1. unfold Engine.fetch. rewrite Hsafe, Hdisk, Htext.
  unfold bind at 1. unfold Engine.Cache_put, bind at 1.
  unfold Engine.schemas_getitem. by rewrite Hsc.
Qed.

(** C8 (amended).  A valid record written under a safe identifier and
    read back: the write succeeds and the read returns the fields as they
    were written, value for value, so every value keeps its runtime type.
    Every field comes back, also one that is not declared, which [write]
    stores unchecked; when every field is declared the fields are their
    own restriction to the declared and valid keys.  The record file
    holds the text of the same mapping, and a read that finds the cache
    cold returns the fields from that text, provided the text decodes to
    what was encoded.  [select] tabulates the fields. *)
Theorem write_read_roundtrip sname id sc payload fields w :
  schemas w !! sname = Some sc ->
  Engine.safe_identifier id = true ->
  parse_payload (configs sc) payload = Return fields ->
  valid_record (configs sc) fields ->
  exists w1,
    Engine.Schema_write parse_payload sname id payload w = (Return tt, w1) /\
    Engine.Schema_read sname id w1 = (Return fields, w1) /\
    (all_declared (configs sc) fields -> restrict (configs sc) fields = fields) /\
    disk w1 !! sname ≫= (fun dir => dir !! id) = Some (json_dumps (PyDict fields)) /\
    (forall w2 sc2,
        json_loads (json_dumps (PyDict fields)) = Return (PyDict fields) ->
        disk w2 = disk w1 ->
        schemas w2 !! sname = Some sc2 ->
        cache sc2 !! id = None ->
        (Engine.Schema_read sname id w2).1 = Return fields) /\
    run_command parse_payload "select" [sname; id] w1
    = (Return tt, show (Tabulated (rows fields)) w1).
Proof.
  intros Hsc Hsafe Hparse Hvalid.
  eexists. split.
  { unfold Engine.Schema_write, bind at 1. unfold Engine.schemas_getitem at 1.
    rewrite Hsc. unfold bind at 1, lift. rewrite Hparse.
    unfold Engine.Schema_write_fields, bind at 1. unfold Engine.schemas_getitem at 1.
    rewrite Hsc. unfold bind at 1. rewrite (validate_fields_valid _ _ Hvalid).
    unfold bind at 1. unfold Engine.persist. rewrite Hsafe.
    unfold Engine.Cache_put, bind.
    unfold Engine.schemas_getitem. simpl. rewrite Hsc. reflexivity. }
  assert (Hread : forall w1,
            schemas w1 !! sname = Some (mkSchema (configs sc) (<[id := fields]> (cache sc))) ->
            Engine.Schema_read sname id w1 = (Return fields, w1)).
  { intros w1 Hw1. unfold Engine.Schema_read, Engine.Cache_get, bind.
    unfold Engine.schemas_getitem. rewrite Hw1. simpl. by rewrite lookup_insert_eq. }
  split; [|split; [|split; [|split]]].
  - apply Hread. simpl. by rewrite lookup_insert_eq.
  - by apply restrict_declared.
  - simpl. rewrite lookup_insert_eq. simpl. by rewrite lookup_insert_eq.
  - intros w2 sc2 Hjson Hdisk Hsc2 Hcold.
    rewrite (read_cold sname id sc2 (json_dumps (PyDict fields)) fields w2); try done.
    + rewrite Hdisk. simpl. rewrite lookup_insert_eq. simpl. by rewrite lookup_insert_eq.
    + unfold Engine.read_record. by rewrite Hjson.
  - unfold run_command. simpl.
    unfold bind at 1. simpl. unfold bind at 1. unfold assert_schema. simpl.
    rewrite lookup_insert_eq.
    unfold try_except, bind at 1. unfold Engine.schemas_getitem at 1. simpl.
    rewrite lookup_insert_eq.
    unfold bind at 1. simpl. unfold bind at 1.
    rewrite Hread by (simpl; by rewrite lookup_insert_eq).
    reflexivity.
Qed.

(** ** Scalar fields *)

Lemma isinstance_spec (v : pyval) (t : pytype) :
  isinstance v t = true <-> type_ v = t \/ (type_ v = bool_ /\ t = int_).
Proof.
  unfold isinstance, issubclass.
  rewrite orb_true_iff, andb_true_iff, !bool_decide_eq_true. tauto.
Qed.

(** C2 (amended).  For a scalar field type: a STRING field takes the line
    as typed, which is a string, and never refuses it; for INTEGER, FLOAT
    and BOOL the decoded value passes exactly when its runtime type is
    the declared type's, or it is a boolean and the field is an INTEGER;
    otherwise the check fails with the type conflict of the declared
    type's name and the value's class.  So a boolean is accepted for an
    INTEGER field and an integer is refused for a FLOAT field. *)
Theorem scalar_validation_isinstance tdata :
  Engine.is_array tdata = false ->
  (tdata = STRING ->
     forall ind, field_entry tdata ind = Return (PyStr ind)
                 /\ type_ (PyStr ind) = Engine.base_type tdata) /\
  (tdata <> STRING ->
     forall data,
       (validate tdata data = Return tt <->
          type_ data = Engine.base_type tdata \/
          (type_ data = bool_ /\ tdata = INTEGER)) /\
       (validate tdata data <> Return tt ->
          validate tdata data
          = Raise (DataTypeConflictException (type_name (Engine.base_type tdata))
                                             (str_type (type_ data))))) /\
  (forall b, validate INTEGER (PyBool b) = Return tt) /\
  (forall z, validate FLOAT (PyInt z)
             = Raise (DataTypeConflictException "float" "<class 'int'>")).
Proof.
  intros Harr.
  assert (Hscalar : tdata <> STRING -> tdata ∈ [INTEGER; FLOAT; BOOL]).
  { destruct tdata; try done; intros _; set_unfold; tauto. }
  split; [by intros -> ind|]. split; [|by split].
  intros Ht data. rewrite (validate_scalar tdata data (Hscalar Ht)).
  destruct (isinstance data (Engine.base_type tdata)) eqn:Hi.
  - split; [|done]. split; [intros _|done].
    apply isinstance_spec in Hi as [?|[? Hint]]; [by left|right].
    split; [done|]. by destruct tdata.
  - split; [|done]. split; [done|]. intros Hv.
    assert (isinstance data (Engine.base_type tdata) = true); [|congruence].
    apply isinstance_spec. destruct Hv as [?|[? ->]]; [by left|by right].
Qed.

(** ** Commands only consume input *)

Create HintDb consumes.

Lemma consumes_ret {A} (a : A) : consumes (ret a).
Proof. by intros w. Qed.

Lemma consumes_raise {A} (e : exn) : consumes (raise (A:=A) e).
Proof. by intros w. Qed.

Lemma consumes_lift {A} (o : outcome A) : consumes (lift o).
Proof. by intros w. Qed.

Lemma consumes_bind {A B} (m : M A) (k : A -> M B) :
  consumes m -> (forall a, consumes (k a)) -> consumes (bind m k).
Proof.
  intros Hm Hk w. unfold bind. specialize (Hm w).
  destruct (m w) as [[a|e] w1]; simpl in *; [|done].
  specialize (Hk a w1). lia.
Qed.

Lemma consumes_try_except {A} (m : M A) (h : exn -> option (M A)) :
  consumes m -> (forall e k, h e = Some k -> consumes k) -> consumes (try_except m h).
Proof.
  intros Hm Hh w. unfold try_except. specialize (Hm w).
  destruct (m w) as [[a|e] w1]; simpl in *; [done|].
  destruct (h e) as [k|] eqn:Hk; [|done].
  specialize (Hh e k Hk w1). lia.
Qed.

Lemma consumes_console_print text : consumes (console_print text).
Proof. intros w. unfold console_print. by destruct (Markup.renders text). Qed.

Lemma consumes_print_table table : consumes (print_table table).
Proof. by intros w. Qed.

Lemma consumes_console_input prompt : consumes (console_input prompt).
Proof.
  intros w. unfold console_input, pending.
  destruct (stdin w) as [|line rest] eqn:Hin; simpl; rewrite ?Hin; simpl; lia.
Qed.

Lemma consumes_getitem l i : consumes (getitem l i).
Proof. unfold getitem. destruct (l !! i); by intros w. Qed.

Lemma consumes_assert_schema sname msg : consumes (assert_schema sname msg).
Proof. intros w. unfold assert_schema. by destruct (schemas w !! sname). Qed.

Lemma consumes_schemas_getitem sname : consumes (Engine.schemas_getitem sname).
Proof. intros w. unfold Engine.schemas_getitem. by destruct (schemas w !! sname). Qed.

Lemma consumes_persist sname id r : consumes (Engine.persist sname id r).
Proof. intros w. unfold Engine.persist. by destruct (Engine.safe_identifier id). Qed.

Lemma consumes_fetch sname id : consumes (Engine.fetch sname id).
Proof.
  intros w. unfold Engine.fetch.
  destruct (Engine.safe_identifier id); [|done]. by destruct (_ ≫= _).
Qed.

#[local] Hint Resolve consumes_ret consumes_raise consumes_lift consumes_console_print
  consumes_print_table consumes_console_input consumes_getitem consumes_assert_schema
  consumes_schemas_getitem consumes_persist consumes_fetch : consumes.

(** Takes a computation apart along [bind] and [try ... except]. *)
Ltac consumes_step :=
  first
    [ solve [eauto with consumes]
    | apply consumes_bind; [|intros ?]
    | apply consumes_try_except; [|intros [] ? [= <-]]
    | by intros ? ].

Lemma consumes_Cache_put sname id r : consumes (Engine.Cache_put sname id r).
Proof. unfold Engine.Cache_put. repeat consumes_step. Qed.

#[local] Hint Resolve consumes_Cache_put : consumes.

Lemma consumes_Cache_get sname id : consumes (Engine.Cache_get sname id).
Proof.
  unfold Engine.Cache_get. consumes_step; [consumes_step|].
  destruct (cache a !! id); repeat consumes_step.
Qed.

Lemma consumes_Cache_load sname : consumes (Engine.Cache_load sname).
Proof. unfold Engine.Cache_load. repeat consumes_step. Qed.

Lemma consumes_Schema_write sname id payload :
  consumes (Engine.Schema_write parse_payload sname id payload).
Proof.
  unfold Engine.Schema_write, Engine.Schema_write_fields. repeat consumes_step.
Qed.

Lemma consumes_Schema_display_dict sname : consumes (Engine.Schema_display_dict sname).
Proof. unfold Engine.Schema_display_dict. repeat consumes_step. Qed.

Lemma consumes_add_schema sname decl : consumes (Engine.add_schema sname decl).
Proof.
  intros w. unfold Engine.add_schema.
  destruct (schemas w !! sname); [done|].
  destruct (Engine.parse_pairs _); [|done]. by destruct (List.find _ _).
Qed.

Lemma consumes_drop_schema sname : consumes (Engine.drop_schema sname).
Proof. intros w. unfold Engine.drop_schema. by destruct (schemas w !! sname). Qed.

#[local] Hint Resolve consumes_Cache_get consumes_Cache_load consumes_Schema_write
  consumes_Schema_display_dict consumes_add_schema consumes_drop_schema : consumes.

Lemma consumes_map_insert_loop items entries : consumes (map_insert_loop items entries).
Proof.
  revert entries. induction items as [|[key tdata] items IH]; intros entries; simpl;
    repeat consumes_step.
Qed.

#[local] Hint Resolve consumes_map_insert_loop : consumes.

Lemma consumes_insert_prompted sname restargs :
  consumes (insert_prompted parse_payload sname restargs).
Proof. unfold insert_prompted, map_insert_to_json. repeat consumes_step. Qed.

Lemma consumes_load_each names : consumes (load_each names).
Proof. induction names as [|sname names IH]; simpl; repeat consumes_step. Qed.

Lemma consumes_load_all names : consumes (load_all names).
Proof. induction names as [|sname names IH]; simpl; repeat consumes_step. Qed.

#[local] Hint Resolve consumes_insert_prompted consumes_load_each consumes_load_all
  : consumes.

Lemma consumes_run_command action restargs :
  consumes (run_command parse_payload action restargs).
Proof.
  unfold run_command, Engine.Schema_read.
  repeat case_bool_decide; repeat consumes_step.
  intros w. apply consumes_load_all.
Qed.

Lemma consumes_dispatch cmd : consumes (dispatch parse_payload cmd).
Proof.
  unfold dispatch. pose proof consumes_run_command. repeat consumes_step.
Qed.

(** ** The session loop *)

Lemma complete_command_done fuel cmd w :
  Str.endswith cmd ";" = true -> complete_command fuel cmd w = Some (Return cmd, w).
Proof. intros Hend. destruct fuel; simpl; by rewrite Hend. Qed.

(** One pass of [while True] on a command typed on one line. *)
Lemma session_loop_pass fuel line rest action args w :
  stdin w = line :: rest ->
  Str.endswith (Str.strip line) ";" = true ->
  Str.split (Str.strip_chars " ;" (Str.strip line)) = action :: args ->
  session_loop parse_payload (S fuel) w
  = match run_command parse_payload action (command_args (action :: args))
            (after_command_prompt rest w) with
    | (Return _, w') => session_loop parse_payload fuel w'
    | (Raise (AssertionError msg), w') =>
        if Markup.renders ("[red]" +:+ msg)
        then session_loop parse_payload fuel (show (Printed ("[red]" +:+ msg)) w')
        else Some (Raise MarkupError, w')
    | (Raise e, w') => Some (Raise e, w')
    end.
Proof.
  intros Hin Hend Hsplit. simpl. unfold console_input at 1. rewrite Hin.
  rewrite (complete_command_done _ _ _ Hend).
  unfold dispatch. rewrite Hsplit. unfold try_except, bind at 1. simpl.
  unfold command_args, after_command_prompt.
  destruct (run_command parse_payload action _ _) as [[[]|e] w']; [done|].
  destruct e; try done.
  unfold console_print. by destruct (Markup.renders _).
Qed.

(** After a command for which [run_command] returns, the loop goes on to
    the next command in the world the command left. *)
Theorem session_continues_after_return fuel line rest action args w w' :
  stdin w = line :: rest ->
  Str.endswith (Str.strip line) ";" = true ->
  Str.split (Str.strip_chars " ;" (Str.strip line)) = action :: args ->
  run_command parse_payload action (command_args (action :: args))
    (after_command_prompt rest w) = (Return tt, w') ->
  session_loop parse_payload (S fuel) w = session_loop parse_payload fuel w'.
Proof.
  intros Hin Hend Hsplit Hrun.
  by rewrite (session_loop_pass fuel line rest action args w Hin Hend Hsplit), Hrun.
Qed.


(** ** Enough fuel *)

Lemma complete_command_enough fuel cmd w :
  pending w < fuel ->
  exists r w', complete_command fuel cmd w = Some (r, w') /\ pending w' <= pending w.
Proof.
  revert cmd w. induction fuel as [|fuel IH]; intros cmd w Hfuel; [lia|].
  simpl. destruct (Str.endswith cmd ";"); [by eauto|].
  pose proof (consumes_console_input "[bold][green]>[/green][/bold] " w) as Hw.
  unfold console_input in *. unfold pending in *.
  destruct (stdin w) as [|line rest] eqn:Hin; simpl in *; [by eauto|].
  destruct (IH (cmd +:+ " " +:+ Str.strip line)
               (set_stdin rest (show (Prompted "[bold][green]>[/green][/bold] ") w)))
    as (r & w' & -> & Hw'); simpl in *; [lia|].
  exists r, w'. split; [done|lia].
Qed.

(** With more fuel than there are lines pending, the loop of the session
    does not run out of fuel; as the program does at the end of its input,
    it ends by an exception. *)
Theorem session_loop_enough fuel w :
  pending w < fuel ->
  exists e w', session_loop parse_payload fuel w = Some (Raise e, w').
Proof.
  revert w. induction fuel as [|fuel IH]; intros w Hfuel; [lia|].
  simpl.
  pose proof (consumes_console_input "[bold][green]#[/green][/bold] " w) as Hw.
  destruct (console_input "[bold][green]#[/green][/bold] " w) as [[line|e] w1] eqn:Hline;
    [|by eauto].
  assert (pending w1 < fuel) as Hw1.
  { unfold console_input, pending in *.
    destruct (stdin w); simplify_eq/=. lia. }
  destruct (complete_command_enough fuel (Str.strip line) w1 Hw1)
    as ([cmd|e] & w2 & -> & Hw2); [|by eauto].
  pose proof (consumes_dispatch cmd w2) as Hw3.
  destruct (dispatch parse_payload cmd w2) as [[[]|e] w3]; simpl in *; [|by eauto].
  apply IH. lia.
Qed.

Theorem run_session_enough fuel w :
  pending w < fuel -> is_Some (run_session parse_payload fuel w).
Proof.
  intros Hfuel. unfold run_session, console_print.
  destruct (Markup.renders _); [|done].
  destruct (session_loop_enough fuel (show (welcome w) w)) as (e & w' & Hloop); [done|].
  unfold welcome, welcome_text in Hloop. rewrite Hloop.
  by destruct e.
Qed.

End SessionProperties.

(** ** Words and lines *)

Lemma append_assoc (a b c : string) : (a +:+ b) +:+ c = a +:+ (b +:+ c).
Proof. induction a as [|x a IH]; [done|]. by rewrite !append_cons, IH. Qed.

Lemma append_nil_r (a : string) : a +:+ "" = a.
Proof. induction a as [|x a IH]; [done|]. by rewrite append_cons, IH. Qed.

Lemma rev_app_append (s acc : string) : String.rev_app s acc = String.rev s +:+ acc.
Proof.
  revert acc. induction s as [|x s IH]; intros acc; [done|].
  unfold String.rev. simpl. rewrite (IH (String x acc)), (IH (String x "")).
  by rewrite append_assoc.
Qed.

Lemma rev_append (a b : string) : String.rev (a +:+ b) = String.rev b +:+ String.rev a.
Proof.
  induction a as [|x a IH]; simpl.
  - by rewrite append_nil_r.
  - unfold String.rev in *. simpl.
    rewrite (rev_app_append (a +:+ b)), (rev_app_append a).
    fold (String.rev (a +:+ b)). fold (String.rev a).
    unfold String.rev in IH |- *. rewrite IH. by rewrite append_assoc.
Qed.

Lemma rev_involutive (s : string) : String.rev (String.rev s) = s.
Proof.
  induction s as [|x s IH]; [done|].
  change (String x s) with (String x "" +:+ s) at 1.
  rewrite rev_append, rev_append. by rewrite IH.
Qed.

Lemma spaceless_append (a b : string) : spaceless (a +:+ b) = spaceless a && spaceless b.
Proof. induction a as [|x a IH]; simpl; [done|]. by rewrite IH, andb_assoc. Qed.

Lemma spaceless_rev (s : string) : spaceless (String.rev s) = spaceless s.
Proof.
  induction s as [|x s IH]; [done|].
  change (String x s) with (String x "" +:+ s) at 1.
  rewrite rev_append, spaceless_append, IH. simpl. by rewrite andb_true_r, andb_comm.
Qed.

Lemma rev_nonempty (s : string) : s <> "" -> String.rev s <> "".
Proof.
  destruct s as [|x s]; [done|]. intros _.
  change (String x s) with (String x "" +:+ s).
  rewrite rev_append. destruct (String.rev s); done.
Qed.

Lemma lstrip_spaceless (s : string) : spaceless s = true -> Str.lstrip_by Str.isspace s = s.
Proof. destruct s as [|c s]; simpl; [done|]. by destruct (Str.isspace c). Qed.

(** [strip] leaves a text without whitespace as it is. *)
Lemma strip_spaceless (s : string) : spaceless s = true -> Str.strip s = s.
Proof.
  intros Hs. unfold Str.strip, Str.strip_by, Str.rstrip_by.
  rewrite (lstrip_spaceless s Hs), lstrip_spaceless by (by rewrite spaceless_rev).
  apply rev_involutive.
Qed.

(** The words [split] yields are not empty and hold no whitespace. *)
Lemma split_go_words (cur s : string) :
  spaceless cur = true ->
  Forall (fun t => spaceless t = true /\ t <> "") (Str.split_go cur s).
Proof.
  revert cur. induction s as [|c s IH]; intros cur Hcur; simpl.
  - case_bool_decide; [done|].
    repeat constructor; [by rewrite spaceless_rev|by apply rev_nonempty].
  - destruct (Str.isspace c) eqn:Hc.
    + case_bool_decide; [by apply IH|].
      constructor; [|by apply IH].
      split; [by rewrite spaceless_rev|by apply rev_nonempty].
    + apply IH. simpl. by rewrite Hc.
Qed.

Lemma split_words (s : string) :
  Forall (fun t => spaceless t = true /\ t <> "") (Str.split s).
Proof. by apply split_go_words. Qed.

(** On the words of a split text, dropping the words equal to one space
    and stripping the others changes nothing. *)
Lemma command_args_split (s : string) :
  command_args (Str.split s) = drop 1 (Str.split s).
Proof.
  unfold command_args. f_equal.
  induction (split_words s) as [|t l [Ht _] _ IH]; [done|].
  rewrite filter_cons_True by (intros ->; done).
  rewrite fmap_cons, IH. by rewrite strip_spaceless.
Qed.

Lemma endswith_semicolon (s : string) :
  Str.endswith s ";" = match String.rev s with
                       | String c _ => bool_decide (c = ";"%char)
                       | EmptyString => false
                       end.
Proof.
  unfold Str.endswith. change (String.rev ";") with ";".
  destruct (String.rev s) as [|c r]; [done|].
  change (String.prefix ";" (String c r))
    with (if ascii_dec ";" c then String.prefix "" r else false).
  destruct (ascii_dec ";" c) as [<-|Hne]; [by destruct r|].
  by rewrite bool_decide_eq_false_2.
Qed.

(** A command continued by a line ends in a semicolon exactly when the
    line does. *)
Lemma endswith_joined (cmd piece : string) :
  Str.endswith (cmd +:+ " " +:+ piece) ";" = Str.endswith piece ";".
Proof.
  rewrite !endswith_semicolon, !rev_append.
  destruct (String.rev piece) as [|c r]; [done|]. by rewrite append_cons.
Qed.

Lemma join_cons (sep x y : string) (l : list string) :
  Str.join sep (x :: y :: l) = x +:+ sep +:+ Str.join sep (y :: l).
Proof. reflexivity. Qed.

Lemma split_go_spaceless (cur t s : string) :
  spaceless t = true ->
  Str.split_go cur (t +:+ s) = Str.split_go (String.rev t +:+ cur) s.
Proof.
  revert cur. induction t as [|c t IH]; intros cur Ht; [done|].
  simpl in Ht. apply andb_true_iff in Ht as [Hc Ht]. apply negb_true_iff in Hc.
  rewrite append_cons. simpl. rewrite Hc. rewrite (IH _ Ht).
  change (String c t) with (String c "" +:+ t).
  by rewrite rev_append, append_assoc.
Qed.

Lemma split_go_space (cur s : string) :
  cur <> "" -> Str.split_go cur (" " +:+ s) = String.rev cur :: Str.split_go "" s.
Proof. intros Hcur. simpl. by rewrite bool_decide_eq_false_2. Qed.

Lemma split_join (words : list string) :
  Forall (fun t => spaceless t = true /\ t <> "") words ->
  Str.split (Str.join " " words) = words.
Proof.
  unfold Str.split.
  induction 1 as [|t words [Ht Hne] Hwords IH]; [done|].
  destruct words as [|u words].
  - simpl Str.join. rewrite <- (append_nil_r t) at 1.
    rewrite (split_go_spaceless _ _ _ Ht), append_nil_r. simpl.
    rewrite bool_decide_eq_false_2 by (by apply rev_nonempty).
    by rewrite rev_involutive.
  - rewrite join_cons, (split_go_spaceless _ _ _ Ht), append_nil_r.
    rewrite split_go_space by (by apply rev_nonempty).
    by rewrite rev_involutive, IH.
Qed.

(** The words [run_command] joins by single spaces to hand on as one text,
    the declaration of [!create_schema] and the payload of [insert] with
    more than two arguments, split on whitespace into the same words
    again. *)
Theorem joined_words_split_back (s : string) (n : nat) :
  Str.split (Str.join " " (drop n (Str.split s))) = drop n (Str.split s).
Proof.
  apply split_join. apply Forall_drop, split_words.
Qed.

(** A command typed over several lines: [run_session] keeps prompting until
    a line, stripped, ends in a semicolon, and the command is the stripped
    lines joined by single spaces; the lines after it are left unread. *)
Theorem command_spans_lines fuel cmd pre last rest w :
  Str.endswith cmd ";" = false ->
  Forall (fun l => Str.endswith (Str.strip l) ";" = false) pre ->
  Str.endswith (Str.strip last) ";" = true ->
  stdin w = pre ++ last :: rest ->
  length pre < fuel ->
  complete_command fuel cmd w
  = Some (Return (Str.join " " (cmd :: (Str.strip <$> pre ++ [last]))),
          after_continuations (S (length pre)) rest w).
Proof.
  intros Hcmd Hpre Hlast. revert fuel cmd w Hcmd.
  induction Hpre as [|l pre Hl _ IH]; intros fuel cmd w Hcmd Hin Hfuel.
  - destruct fuel as [|fuel]; [simpl in Hfuel; lia|]. simpl. rewrite Hcmd.
    unfold console_input. simpl in Hin. rewrite Hin.
    rewrite complete_command_done by (by rewrite endswith_joined).
    unfold after_continuations. simpl. by destruct w.
  - destruct fuel as [|fuel]; [simpl in Hfuel; lia|]. simpl complete_command. rewrite Hcmd.
    unfold console_input. simpl in Hin. rewrite Hin.
    rewrite (IH fuel); [| by rewrite endswith_joined | done | simpl in Hfuel; lia].
    f_equal. f_equal.
    + f_equal. rewrite <- app_comm_cons, fmap_cons.
      destruct (Str.strip <$> pre ++ [last]) as [|y l'] eqn:Hy.
      { by destruct pre. }
      rewrite !join_cons. by rewrite !append_assoc.
    + unfold after_continuations. simpl. by rewrite <- app_assoc.
Qed.

(** When the input ends before any line ends in a semicolon, the command is
    never run: the prompt after the last line raises [EOFError]. *)
Theorem command_unfinished_at_end_of_input fuel cmd lines w :
  Str.endswith cmd ";" = false ->
  Forall (fun l => Str.endswith (Str.strip l) ";" = false) lines ->
  stdin w = lines ->
  length lines < fuel ->
  complete_command fuel cmd w
  = Some (Raise EOFError, after_continuations (S (length lines)) [] w).
Proof.
  intros Hcmd Hlines. revert fuel cmd w Hcmd.
  induction Hlines as [|l lines Hl _ IH]; intros fuel cmd w Hcmd Hin Hfuel.
  - destruct fuel as [|fuel]; [simpl in Hfuel; lia|]. simpl. rewrite Hcmd.
    unfold console_input. rewrite Hin. unfold after_continuations, show.
    destruct w; simpl in *; by subst.
  - destruct fuel as [|fuel]; [simpl in Hfuel; lia|]. simpl complete_command. rewrite Hcmd.
    unfold console_input. rewrite Hin.
    rewrite (IH fuel); [| by rewrite endswith_joined | done | simpl in Hfuel; lia].
    unfold after_continuations. simpl. by rewrite <- app_assoc.
Qed.

(** ** [verify_array] on what it is given *)

(** [verify_array] raises nothing, and returns [None], exactly when every
    item is an instance of [t], a bool counting as an instance of [int]. *)
Theorem verify_array_loop_returns_iff (t : pytype) (items : list pyval) :
  verify_array_loop t items = Return PyNone <->
  Forall (fun item => isinstance item t = true) items.
Proof.
  induction items as [|item items IH]; simpl.
  - split; [constructor|done].
  - destruct (isinstance item t) eqn:Hi; simpl.
    + rewrite IH. split; [by constructor|]. by inversion 1.
    + split; [done|]. inversion 1; congruence.
Qed.

Lemma verify_array_loop_chars (s : string) :
  verify_array_loop str_ ((fun c => PyStr (String c "")) <$> list_ascii_of_string s)
  = Return PyNone.
Proof. induction s as [|c s IH]; [done|]. exact IH. Qed.

Lemma verify_array_loop_keys (d : list (string * pyval)) :
  verify_array_loop str_ ((fun kv => PyStr kv.1) <$> d) = Return PyNone.
Proof. induction d as [|kv d IH]; [done|]. exact IH. Qed.

(** [verify_array] does not ask for a list: it iterates whatever it is
    given.  A string is taken character by character and an object key by
    key, so for [str] neither raises a conflict, and for the other types
    each that is not empty conflicts as a [str]. *)
Theorem verify_array_iterates_strings :
  (forall s, verify_array str_ (PyStr s) = Return PyNone) /\
  (forall d, verify_array str_ (PyDict d) = Return PyNone) /\
  (forall t c s,
      t ∈ [int_; float_; bool_] ->
      verify_array t (PyStr (String c s))
      = Raise (DataTypeConflictException (str_type t) "<class 'str'>")) /\
  (forall t kv d,
      t ∈ [int_; float_; bool_] ->
      verify_array t (PyDict (kv :: d))
      = Raise (DataTypeConflictException (str_type t) "<class 'str'>")).
Proof.
  split; [|split; [|split]].
  - intros s. apply verify_array_loop_chars.
  - intros d. apply verify_array_loop_keys.
  - intros t c s Ht.
    repeat (apply elem_of_cons in Ht as [->|Ht]; [reflexivity|]).
    by apply elem_of_nil in Ht.
  - intros t kv d Ht.
    repeat (apply elem_of_cons in Ht as [->|Ht]; [reflexivity|]).
    by apply elem_of_nil in Ht.
Qed.

Section SessionEdges.

Context {rich : Rich} {json : Json}.
Variable parse_payload :
  list (string * SchemaTypeToPyT) -> string -> outcome (list (string * pyval)).

(** [run_session] around its loop: the welcome is printed first, and the
    [KeyboardInterrupt] that leaves the loop is answered by the goodbye,
    which the console renders. *)
Lemma run_session_loop fuel w :
  run_session parse_payload fuel w
  = if Markup.renders (welcome_text w)
    then match session_loop parse_payload fuel (show (welcome w) w) with
         | Some (Raise KeyboardInterrupt, w') => Some (Return tt, show goodbye w')
         | r => r
         end
    else Some (Raise MarkupError, w).
Proof.
  unfold run_session, console_print, welcome, welcome_text.
  destruct (Markup.renders _); [|done].
  destruct (session_loop _ _ _) as [[[[]|e] w']|]; try done.
  destruct e; try done. by rewrite renders_goodbye.
Qed.

(** ** What [run_session] hands to [run_command] *)

(** The first word of the command is the action and the words after it
    are the arguments, exactly: among the words of a split text none is a
    single space and stripping changes none.  A command with no word at
    all, only spaces and semicolons, raises [IndexError] at [vals[0]]. *)
Theorem dispatch_words cmd w :
  dispatch parse_payload cmd w
  = match Str.split (Str.strip_chars " ;" cmd) with
    | [] => (Raise IndexError, w)
    | action :: args =>
        try_except (run_command parse_payload action args) assertion_handler w
    end.
Proof.
  unfold dispatch.
  pose proof (command_args_split (Str.strip_chars " ;" cmd)) as Hargs.
  unfold command_args in Hargs. rewrite Hargs.
  destruct (Str.split (Str.strip_chars " ;" cmd)) as [|action args]; [done|].
  unfold try_except, bind. simpl. rewrite drop_0. done.
Qed.

(** A line of nothing but spaces and semicolons ends the session: the
    [IndexError] is matched by neither handler of [run_session].  (Here
    and below, [greeted] says that all this follows the welcome, which
    the console has to render first.) *)
Theorem empty_command_ends_session fuel line rest w :
  stdin w = line :: rest ->
  Str.endswith (Str.strip line) ";" = true ->
  Str.split (Str.strip_chars " ;" (Str.strip line)) = [] ->
  run_session parse_payload (S fuel) w
  = Some (greeted w (Raise IndexError, after_command_prompt rest (show (welcome w) w))).
Proof.
  intros Hin Hend Hsplit. rewrite run_session_loop. unfold greeted.
  destruct (Markup.renders _); [|done].
  simpl session_loop. unfold console_input at 1. simpl stdin. rewrite Hin.
  rewrite (complete_command_done _ _ _ Hend).
  unfold dispatch. rewrite Hsplit. reflexivity.
Qed.

(** ** The branches of [run_command] *)

Lemma run_command_quit action restargs w :
  action ∈ ["!q"; "!quit"; ":q"; ":quit"] ->
  run_command parse_payload action restargs w = (Raise KeyboardInterrupt, w).
Proof.
  intros Hq. unfold run_command.
  rewrite !(bool_decide_eq_false_2 (action = _)).
  - by rewrite bool_decide_eq_true_2.
  - intros ->. by refute_elem Hq.
  - intros ->. by refute_elem Hq.
  - intros ->. by refute_elem Hq.
  - intros ->. by refute_elem Hq.
  - intros ->. by refute_elem Hq.
  - intros ->. by refute_elem Hq.
Qed.

(** Any of the four quit words, whatever follows it, ends the session
    normally: [run_session] says goodbye and returns, the schemas and the
    record files are as they were and the lines after the command are not
    read. *)
Theorem quit_ends_session fuel line rest action args w :
  stdin w = line :: rest ->
  Str.endswith (Str.strip line) ";" = true ->
  Str.split (Str.strip_chars " ;" (Str.strip line)) = action :: args ->
  action ∈ ["!q"; "!quit"; ":q"; ":quit"] ->
  run_session parse_payload (S fuel) w
  = Some (greeted w
            (Return tt, show goodbye (after_command_prompt rest (show (welcome w) w)))).
Proof.
  intros Hin Hend Hsplit Hq. rewrite run_session_loop. unfold greeted.
  destruct (Markup.renders _); [|done].
  rewrite (session_loop_pass parse_payload fuel line rest action args
             (show (welcome w) w) Hin Hend Hsplit).
  by rewrite run_command_quit.
Qed.

(** A word that is none of the ten commands: [run_command] says so and
    returns, whatever the arguments; only the terminal changes. *)
Theorem unknown_command action restargs w :
  action ∉ commands ->
  run_command parse_payload action restargs w = (Return tt, show invalid_command w).
Proof.
  intros Hc. unfold run_command.
  rewrite !(bool_decide_eq_false_2 (action = _)).
  - rewrite bool_decide_eq_false_2; [apply console_print_renders, renders_invalid_command|].
    intros Hq. apply Hc. unfold commands.
    repeat (apply elem_of_cons in Hq as [->|Hq]; [repeat constructor|]).
    by apply elem_of_nil in Hq.
  - intros ->. apply Hc. repeat constructor.
  - intros ->. apply Hc. repeat constructor.
  - intros ->. apply Hc. repeat constructor.
  - intros ->. apply Hc. repeat constructor.
  - intros ->. apply Hc. repeat constructor.
  - intros ->. apply Hc. repeat constructor.
Qed.

(** A command short of its arguments raises [IndexError] and changes
    nothing: [!create_schema], [!drop_schema], [insert] and [select] with
    no argument, and [insert] and [select] with the name of a schema but no
    identifier. *)
Theorem missing_argument w :
  (forall action,
      action ∈ ["!create_schema"; "!drop_schema"; "insert"; "select"] ->
      run_command parse_payload action [] w = (Raise IndexError, w)) /\
  (forall action sname sc,
      action ∈ ["insert"; "select"] ->
      schemas w !! sname = Some sc ->
      run_command parse_payload action [sname] w = (Raise IndexError, w)).
Proof.
  split.
  - intros action Ha.
    repeat (apply elem_of_cons in Ha as [->|Ha]; [reflexivity|]).
    by apply elem_of_nil in Ha.
  - intros action sname sc Ha Hsc.
    repeat (apply elem_of_cons in Ha as [->|Ha];
            [unfold run_command; simpl; unfold bind at 1; simpl; unfold bind at 1;
             unfold assert_schema; rewrite Hsc|]).
    + reflexivity.
    + unfold try_except, bind at 1. unfold Engine.schemas_getitem. by rewrite Hsc.
    + by apply elem_of_nil in Ha.
Qed.

(** [insert], [select] and [!display_schema] on a name that is not
    registered raise [AssertionError] with the message naming the schema,
    before anything is read, written or shown. *)
Theorem unknown_schema sname args w :
  schemas w !! sname = None ->
  run_command parse_payload "insert" (sname :: args) w
  = (Raise (AssertionError ("No schema named [bold]" +:+ sname +:+ "[/bold] found")), w) /\
  run_command parse_payload "select" (sname :: args) w
  = (Raise (AssertionError ("No schema named " +:+ sname +:+ " found")), w) /\
  run_command parse_payload "!display_schema" [sname] w
  = (Raise (AssertionError ("No schema named [bold]" +:+ sname +:+ "[/bold] found")), w).
Proof.
  intros Hsc.
  repeat split; unfold run_command; simpl; unfold bind at 1; simpl; unfold bind at 1;
    unfold assert_schema; by rewrite Hsc.
Qed.

(** [insert] with more than two arguments does not prompt and has no
    handler: it is the write of the words after the identifier, joined by
    spaces, and whatever the write raises leaves [run_command]. *)
Theorem inline_insert_unhandled sname id word words sc w :
  schemas w !! sname = Some sc ->
  run_command parse_payload "insert" (sname :: id :: word :: words) w
  = Engine.Schema_write parse_payload sname id (Str.join " " (word :: words)) w.
Proof.
  intros Hsc. unfold run_command. simpl.
  unfold bind at 1. simpl. unfold bind at 1. unfold assert_schema. rewrite Hsc.
  reflexivity.
Qed.

(** An exception that leaves [run_command] and is neither an
    [AssertionError] nor a [KeyboardInterrupt] ends the session:
    [run_session] has no handler for it and raises it on. *)
Theorem unhandled_exception_ends_session fuel line rest action args e w w' :
  stdin w = line :: rest ->
  Str.endswith (Str.strip line) ";" = true ->
  Str.split (Str.strip_chars " ;" (Str.strip line)) = action :: args ->
  run_command parse_payload action args (after_command_prompt rest (show (welcome w) w))
  = (Raise e, w') ->
  is_assertion e = false ->
  is_interrupt e = false ->
  run_session parse_payload (S fuel) w = Some (greeted w (Raise e, w')).
Proof.
  intros Hin Hend Hsplit Hrun Ha Hi. rewrite run_session_loop. unfold greeted.
  destruct (Markup.renders _); [|done].
  rewrite (session_loop_pass parse_payload fuel line rest action args
             (show (welcome w) w) Hin Hend Hsplit).
  rewrite <- Hsplit, command_args_split, Hsplit. simpl drop. rewrite drop_0.
  rewrite Hrun. by destruct e.
Qed.

Lemma session_loop_raises fuel w r w' :
  session_loop parse_payload fuel w = Some (r, w') -> exists e, r = Raise e.
Proof.
  revert w. induction fuel as [|fuel IH]; intros w; [done|]. simpl.
  destruct (console_input _ w) as [[line|e] w1]; [|intros [= <- <-]; by eauto].
  destruct (complete_command fuel (Str.strip line) w1) as [[[cmd|e] w2]|];
    [|intros [= <- <-]; by eauto|done].
  destruct (dispatch parse_payload cmd w2) as [[[]|e] w3]; [by apply IH|].
  intros [= <- <-]; by eauto.
Qed.

(** [run_session] returns only by saying goodbye: its loop has no exit but
    an exception, and the one exception it handles is the
    [KeyboardInterrupt] of the quit commands. *)
Theorem run_session_returns_after_goodbye fuel w w' :
  run_session parse_payload fuel w = Some (Return tt, w') ->
  exists w'', w' = show goodbye w''.
Proof.
  rewrite run_session_loop. destruct (Markup.renders _); [|done].
  destruct (session_loop parse_payload fuel _) as [[r w1]|] eqn:Hloop; [|done].
  destruct (session_loop_raises _ _ _ _ Hloop) as [e ->].
  destruct e; try done. intros [= <-]. by eexists.
Qed.

(** ** Prompting, beyond the lines that pass *)

(** A decoded value that cannot be iterated, typed for an array field
    ([null], a boolean or a number): [verify_array] raises [TypeError],
    which [insert] does not handle, so it leaves [run_command]; nothing is
    written and the fields after it are not prompted for. *)
Theorem insert_array_not_iterable sname id sc pre key tdata post lines values ind data more w :
  schemas w !! sname = Some sc ->
  configs sc = pre ++ (key, tdata) :: post ->
  Forall3 passes pre lines values ->
  Engine.is_array tdata = true ->
  json_loads ind = Return data ->
  type_ data ∈ [NoneType; bool_; int_; float_] ->
  stdin w = lines ++ ind :: more ->
  run_command parse_payload "insert" [sname; id] w
  = (Raise (TypeError ("'" +:+ type_name (type_ data) +:+ "' object is not iterable")),
     after_prompts (pre ++ [(key, tdata)]) more w).
Proof.
  intros Hsc Hcfg Hpass Harr Hloads Hty Hin.
  rewrite (run_command_insert parse_payload sname id sc w Hsc).
  rewrite (insert_prompted_prompt_raise parse_payload sname [sname; id] sc
             (TypeError ("'" +:+ type_name (type_ data) +:+ "' object is not iterable")) w
             (after_prompts (pre ++ [(key, tdata)]) more w) Hsc); [done|].
  unfold map_insert_to_json, bind. rewrite Hcfg.
  rewrite (map_insert_loop_raise pre key tdata post lines values ind
             (TypeError ("'" +:+ type_name (type_ data) +:+ "' object is not iterable"))
             [] more w); [done|done| |done].
  unfold field_entry. rewrite bool_decide_eq_false_2 by (by destruct tdata).
  rewrite Hloads. simpl.
  destruct tdata; try discriminate; destruct data; try (by refute_elem Hty); reflexivity.
Qed.

(** A configuration of STRING fields takes any lines, one per field: no
    line is decoded or checked, and the result binds each field name to its
    line as typed. *)
Theorem string_fields_accept_any_line items lines more w :
  Forall (fun kt => kt.2 = STRING) items ->
  NoDup items.*1 ->
  length lines = length items ->
  stdin w = lines ++ more ->
  map_insert_to_json items w
  = (Return (json_dumps (PyDict (zip items.*1 (PyStr <$> lines)))),
     after_prompts items more w).
Proof.
  intros Hstr Hnd Hlen Hin.
  assert (Hpass : Forall3 passes items lines (PyStr <$> lines)).
  { clear Hnd Hin. revert lines Hlen.
    induction Hstr as [|[key tdata] items Hs _ IH]; intros [|l lines] Hlen;
      simplify_eq/=; constructor; [|by apply IH].
    by unfold passes, field_entry. }
  unfold map_insert_to_json, bind.
  pose proof (map_insert_loop_app items [] lines (PyStr <$> lines) [] more w Hpass Hin)
    as Hloop.
  rewrite app_nil_r in Hloop. rewrite Hloop. simpl. unfold ret.
  rewrite dict_set_all_fresh; [done| |done].
  by rewrite !length_fmap.
Qed.

(** [map_insert_to_json] stops at the first field whose line is refused,
    with whatever exception the decoding or the check raised: it returns no
    text, the fields after it are not prompted for and their lines stay
    unread. *)
Theorem prompting_stops_at_failure pre key tdata post lines values ind e more w :
  Forall3 passes pre lines values ->
  field_entry tdata ind = Raise e ->
  stdin w = lines ++ ind :: more ->
  map_insert_to_json (pre ++ (key, tdata) :: post) w
  = (Raise e, after_prompts (pre ++ [(key, tdata)]) more w).
Proof.
  intros Hpass He Hin. unfold map_insert_to_json, bind.
  by rewrite (map_insert_loop_raise pre key tdata post lines values ind e [] more w).
Qed.

(** When the input ends before every field has its line, the prompt for
    the first field without one raises [EOFError]. *)
Theorem prompting_at_end_of_input pre key tdata post lines values w :
  Forall3 passes pre lines values ->
  stdin w = lines ->
  map_insert_to_json (pre ++ (key, tdata) :: post) w
  = (Raise EOFError, after_prompts (pre ++ [(key, tdata)]) [] w).
Proof.
  intros Hpass Hin. unfold map_insert_to_json, bind at 1.
  rewrite (map_insert_loop_app pre _ lines values [] [] w Hpass)
    by (by rewrite app_nil_r).
  simpl. unfold after_prompts, prompts, show. simpl. by rewrite fmap_app, app_assoc.
Qed.

(** [map_insert_to_json] reads at most one line for each declared field,
    and puts none back. *)
Theorem prompting_reads_one_line_per_field items w :
  pending w - length items <= pending (map_insert_to_json items w).2 /\
  pending (map_insert_to_json items w).2 <= pending w.
Proof.
  unfold map_insert_to_json, bind.
  assert (forall entries w,
             pending w - length items <= pending (map_insert_loop items entries w).2 /\
             pending (map_insert_loop items entries w).2 <= pending w) as Hloop.
  { clear w. induction items as [|[key tdata] items IH]; intros entries w; simpl; [lia|].
    unfold bind at 1 3. unfold console_input, pending in *.
    destruct (stdin w) as [|l rest] eqn:Hin; simpl; rewrite ?Hin; [simpl; lia|].
    unfold bind, lift. destruct (field_entry tdata l) as [v|e]; simpl; [|lia].
    specialize (IH (dict_set entries key v)
                   (set_stdin rest (show (Prompted (field_prompt key tdata)) w))).
    simpl in IH. lia. }
  specialize (Hloop [] w).
  by destruct (map_insert_loop items [] w) as [[entries|e] w1].
Qed.

(** ** A schema with an array field, at the prompts *)

Lemma field_entry_array_raises tdata ind :
  Engine.is_array tdata = true -> exists e, field_entry tdata ind = Raise e.
Proof.
  intros Harr. unfold field_entry.
  rewrite bool_decide_eq_false_2 by (by destruct tdata).
  destruct (json_loads ind) as [data|e]; simpl; [|by eexists].
  destruct (validate_array_raises tdata data Harr) as [e ->]. by eexists.
Qed.

Lemma map_insert_loop_array_raises items key tdata entries w :
  (key, tdata) ∈ items ->
  Engine.is_array tdata = true ->
  exists e, (map_insert_loop items entries w).1 = Raise e.
Proof.
  intros Hin Harr. revert entries w.
  induction items as [|[k t] items IH]; intros entries w; [by apply elem_of_nil in Hin|].
  simpl. unfold bind at 1. unfold console_input.
  destruct (stdin w) as [|ind more]; [by eexists|].
  unfold bind, lift.
  apply elem_of_cons in Hin as [[= <- <-]|Hin].
  - destruct (field_entry_array_raises tdata ind Harr) as [e ->]. by eexists.
  - destruct (field_entry t ind) as [v|e]; [|by eexists].
    apply (IH Hin).
Qed.

(** No record of a schema that has an array field can be entered at the
    prompts: whatever lines are typed, [map_insert_to_json] raises, and
    [insert] with a name and an identifier leaves the schemas, their caches
    and the record files as they were. *)
Theorem array_field_blocks_prompted_insert sname id sc key tdata w :
  schemas w !! sname = Some sc ->
  (key, tdata) ∈ configs sc ->
  Engine.is_array tdata = true ->
  (exists e, (map_insert_to_json (configs sc) w).1 = Raise e) /\
  schemas (run_command parse_payload "insert" [sname; id] w).2 = schemas w /\
  disk (run_command parse_payload "insert" [sname; id] w).2 = disk w.
Proof.
  intros Hsc Hin Harr.
  assert (exists e, (map_insert_to_json (configs sc) w).1 = Raise e) as [e He].
  { unfold map_insert_to_json, bind.
    destruct (map_insert_loop_array_raises (configs sc) key tdata [] w Hin Harr) as [e He].
    destruct (map_insert_loop (configs sc) [] w) as [[entries|e0] w1]; simpl in *; [done|].
    by eexists. }
  split; [by eexists|].
  rewrite (run_command_insert parse_payload sname id sc w Hsc).
  pose proof (map_insert_to_json_frame (configs sc) w) as Hframe.
  destruct (map_insert_to_json (configs sc) w) as [r w1] eqn:Hmap. simpl in He, Hframe.
  subst r.
  rewrite (insert_prompted_prompt_raise parse_payload sname [sname; id] sc e w w1 Hsc Hmap).
  destruct e; try done; unfold console_print; by destruct (Markup.renders _).
Qed.

(** ** A line that is not JSON, at the prompts *)

(** C5 (amended).  At the prompts of [insert] with a schema name and an
    identifier, a line that is not JSON, typed for a field that is
    decoded, makes the prompted insert fail with [JSONDecodeError] at that
    field: the lines of the fields before it were each decoded and checked
    in their turn, the check of this field does not run, the fields after
    it are not prompted for, and nothing is written.  Whenever the
    prompted insert fails with [JSONDecodeError], [insert] reports it and
    returns normally, the schemas, their caches and the record files are
    as before, and the session goes on to the next command. *)
Theorem insert_malformed_input sname id sc w :
  schemas w !! sname = Some sc ->
  (forall pre key tdata post lines values ind msg more,
      configs sc = pre ++ (key, tdata) :: post ->
      Forall3 passes pre lines values ->
      tdata <> STRING ->
      json_loads ind = Raise (JSONDecodeError msg) ->
      stdin w = lines ++ ind :: more ->
      insert_prompted parse_payload sname [sname; id] w
      = (Raise (JSONDecodeError msg), after_prompts (pre ++ [(key, tdata)]) more w)) /\
  (forall msg w',
      insert_prompted parse_payload sname [sname; id] w = (Raise (JSONDecodeError msg), w') ->
      run_command parse_payload "insert" [sname; id] w
      = (Return tt, show (Printed "[red]Invalid Input.") w') /\
      schemas w' = schemas w /\ disk w' = disk w) /\
  (forall fuel line rest w0 msg w',
      stdin w0 = line :: rest ->
      Str.endswith (Str.strip line) ";" = true ->
      Str.split (Str.strip_chars " ;" (Str.strip line)) = ["insert"; sname; id] ->
      w = after_command_prompt rest w0 ->
      insert_prompted parse_payload sname [sname; id] w = (Raise (JSONDecodeError msg), w') ->
      session_loop parse_payload (S fuel) w0
      = session_loop parse_payload fuel (show (Printed "[red]Invalid Input.") w')).
Proof.
  intros Hsc.
  assert (Hrun : forall msg w',
            insert_prompted parse_payload sname [sname; id] w
            = (Raise (JSONDecodeError msg), w') ->
            run_command parse_payload "insert" [sname; id] w
            = (Return tt, show (Printed "[red]Invalid Input.") w')).
  { intros msg w' Hraise.
    rewrite (run_command_insert parse_payload sname id sc w Hsc), Hraise.
    apply console_print_renders, renders_invalid_input. }
  split; [|split].
  - intros pre key tdata post lines values ind msg more Hcfg Hpass Ht Hloads Hin.
    apply (insert_prompted_prompt_raise parse_payload sname [sname; id] sc _ w _ Hsc).
    unfold map_insert_to_json, bind. rewrite Hcfg.
    rewrite (map_insert_loop_raise pre key tdata post lines values ind
               (JSONDecodeError msg) [] more w); [done|done| |done].
    unfold field_entry. rewrite bool_decide_eq_false_2 by done. by rewrite Hloads.
  - intros msg w' Hraise. split; [by apply (Hrun msg)|].
    by apply (insert_prompted_raise_frame parse_payload sname id sc (JSONDecodeError msg)).
  - intros fuel line rest w0 msg w' Hin Hend Hsplit -> Hraise.
    rewrite (session_loop_pass parse_payload fuel line rest "insert" [sname; id] w0
               Hin Hend Hsplit).
    rewrite <- Hsplit, command_args_split, Hsplit. simpl drop.
    by rewrite (Hrun msg w' Hraise).
Qed.

End SessionEdges.

(** * The properties on concrete input *)

#[local] Existing Instance RichLit.
#[local] Existing Instance JsonLit.json.

Lemma scalar_validation_isinstance_witness :
  Engine.is_array INTEGER = false /\
  (forall data,
     validate INTEGER data = Return tt <->
       type_ data = int_ \/ (type_ data = bool_ /\ INTEGER = INTEGER)).
Proof.
  split; [reflexivity|]. intros data.
  apply (scalar_validation_isinstance INTEGER eq_refl). discriminate.
Defined.


Lemma map_insert_to_json_scalars_witness :
  map_insert_to_json user_configs (demo ["Ann"; "30"; "select user u1;"])
  = (Return (json_dumps (PyDict [("name", PyStr "Ann"); ("age", PyInt 30)])),
     after_prompts user_configs ["select user u1;"] (demo ["Ann"; "30"; "select user u1;"])).
Proof.
  apply (map_insert_to_json_scalars user_configs ["Ann"; "30"] [PyStr "Ann"; PyInt 30]
           ["select user u1;"] (demo ["Ann"; "30"; "select user u1;"])).
  - apply (bool_decide_unpack _). reflexivity.
  - repeat constructor.
  - repeat constructor.
  - reflexivity.
Defined.

Lemma display_schema_wrong_usage_witness :
  run_command JsonLit.parse_payload "!display_schema" [] (demo [])
  = (Return tt,
     show (Printed (display_syntax "!display_schema" "!display_schema <schema_name>")) (demo [])).
Proof.
  apply (display_schema_wrong_usage JsonLit.parse_payload [] (demo [])). discriminate.
Defined.



Lemma type_conflict_surfaced_witness :
  run_command JsonLit.parse_payload "insert" ["user"; "u2"]
    (demo ["Bob"; JsonLit.quoted "thirty"])
  = (Return tt,
     show (Printed "[red]Expected int, got <class 'str'>")
       (after_prompts user_configs [] (demo ["Bob"; JsonLit.quoted "thirty"]))).
Proof.
  pose proof (type_conflict_surfaced JsonLit.parse_payload "user" "u2"
                (mkSchema user_configs ∅) (demo ["Bob"; JsonLit.quoted "thirty"]) eq_refl)
    as [_ [Hint _]].
  apply (Hint [("name", STRING)] "age" [] ["Bob"] [PyStr "Bob"]
               (JsonLit.quoted "thirty") "thirty" []).
  - reflexivity.
  - repeat constructor.
  - reflexivity.
  - reflexivity.
Defined.

Lemma insert_malformed_input_witness :
  insert_prompted JsonLit.parse_payload "user" ["user"; "u2"] (demo ["Bob"; "thirty"])
  = (Raise (JSONDecodeError "Expecting value"),
     after_prompts user_configs [] (demo ["Bob"; "thirty"])) /\
  run_command JsonLit.parse_payload "insert" ["user"; "u2"] (demo ["Bob"; "thirty"])
  = (Return tt,
     show (Printed "[red]Invalid Input.") (after_prompts user_configs [] (demo ["Bob"; "thirty"]))).
Proof.
  pose proof (insert_malformed_input JsonLit.parse_payload "user" "u2"
                (mkSchema user_configs ∅) (demo ["Bob"; "thirty"]) eq_refl)
    as [Hraise [Hrun _]].
  assert (Hp : insert_prompted JsonLit.parse_payload "user" ["user"; "u2"] (demo ["Bob"; "thirty"])
               = (Raise (JSONDecodeError "Expecting value"),
                  after_prompts user_configs [] (demo ["Bob"; "thirty"]))).
  { apply (Hraise [("name", STRING)] "age" INTEGER [] ["Bob"] [PyStr "Bob"]
                    "thirty" "Expecting value" []).
    - reflexivity.
    - repeat constructor.
    - discriminate.
    - reflexivity.
    - reflexivity. }
  split; [exact Hp|]. exact (proj1 (Hrun _ _ Hp)).
Defined.

(** C5 (counterexample).  A payload that is not JSON, given to [insert]
    on the command line after the identifier, is not reported: the write
    is outside the [try], its [JSONDecodeError] leaves [run_command] and
    ends the session with the next command unread.  And at the prompts the
    first field is decoded and checked before the line of the second is
    read: with a second line that is not JSON, the insert fails by that
    line when the first line passes its check, and by the type conflict of
    the first, the second line unread, when it does not. *)
Lemma malformed_input_unhandled_or_late :
  run_session JsonLit.parse_payload 3 (demo ["insert user u1 {bad;"; "!q;"])
  = Some (Raise (JSONDecodeError "Expecting value"),
          after_command_prompt ["!q;"]
            (show (welcome (demo ["insert user u1 {bad;"; "!q;"]))
               (demo ["insert user u1 {bad;"; "!q;"]))) /\
  run_command JsonLit.parse_payload "insert" ["pair"; "p1"] (paired ["30"; "{bad"])
  = (Return tt,
     show (Printed "[red]Invalid Input.") (after_prompts pair_configs [] (paired ["30"; "{bad"]))) /\
  run_command JsonLit.parse_payload "insert" ["pair"; "p1"]
    (paired [JsonLit.quoted "one"; "{bad"])
  = (Return tt,
     show (Printed "[red]Expected int, got <class 'str'>")
       (after_prompts [("x", INTEGER)] ["{bad"] (paired [JsonLit.quoted "one"; "{bad"]))).
Proof. repeat split; vm_compute; reflexivity. Qed.



Lemma write_read_roundtrip_witness :
  exists w1,
    Engine.Schema_write JsonLit.parse_payload "user" "u1" ann_payload (demo []) = (Return tt, w1) /\
    Engine.Schema_read "user" "u1" w1 = (Return ann, w1) /\
    restrict user_configs ann = ann /\
    disk w1 !! "user" ≫= (fun dir => dir !! "u1") = Some ann_payload /\
    (Engine.Schema_read "user" "u1" (cold [])).1 = Return ann /\
    run_command JsonLit.parse_payload "select" ["user"; "u1"] w1
    = (Return tt, show (Tabulated [[PyStr "name"; PyStr "Ann"]; [PyStr "age"; PyInt 30]]) w1).
Proof.
  destruct (write_read_roundtrip JsonLit.parse_payload "user" "u1" (mkSchema user_configs ∅)
              ann_payload ann (demo []))
    as (w1 & Hwrite & Hread & Hrestrict & Hfile & Hcold & Hselect).
  - reflexivity.
  - reflexivity.
  - reflexivity.
  - repeat constructor; intros t [= <-]; reflexivity.
  - exists w1. split; [exact Hwrite|]. split; [exact Hread|].
    split; [|split; [exact Hfile|split; [|exact Hselect]]].
    + apply Hrestrict. repeat constructor; by eexists.
    + apply (Hcold (cold []) (mkSchema user_configs ∅)).
      * vm_compute. reflexivity.
      * injection Hwrite as <-. vm_compute. reflexivity.
      * reflexivity.
      * reflexivity.
Defined.

(** C8 (counterexample).  A record with a field that is not declared is
    valid, [write] accepts it, and [read] returns it with that field:
    what comes back is not the record restricted to the declared and
    valid keys. *)
Lemma undeclared_field_read_back :
  exists w1,
    Engine.Schema_write JsonLit.parse_payload "user" "u1" nicknamed_payload (demo [])
    = (Return tt, w1) /\
    Engine.Schema_read "user" "u1" w1 = (Return nicknamed, w1) /\
    restrict user_configs nicknamed = [("name", PyStr "Ann")].
Proof. eexists. repeat split; vm_compute; reflexivity. Qed.

Lemma verify_array_loop_first_mismatch_witness :
  verify_array_loop int_ ([PyInt 1; PyBool true] ++ PyStr "a" :: [PyNone])
  = Raise (DataTypeConflictException "<class 'int'>" "<class 'str'>").
Proof.
  apply (verify_array_loop_first_mismatch int_ [PyInt 1; PyBool true] [PyNone] (PyStr "a")).
  - repeat constructor.
  - reflexivity.
Defined.

Lemma session_continues_after_return_witness :
  session_loop JsonLit.parse_payload 3 (demo ["select user nope;"; "!q;"])
  = session_loop JsonLit.parse_payload 2
      (show (Printed "[red]No data with ID nope found.")
         (after_command_prompt ["!q;"] (demo ["select user nope;"; "!q;"]))).
Proof.
  apply (session_continues_after_return JsonLit.parse_payload 2 "select user nope;" ["!q;"]
           "select" ["user"; "nope"]); reflexivity.
Defined.


Lemma run_session_enough_witness :
  is_Some (run_session JsonLit.parse_payload 3 (demo ["select user nope;"; "!q;"])).
Proof.
  apply (run_session_enough JsonLit.parse_payload 3 (demo ["select user nope;"; "!q;"])).
  unfold pending. simpl. lia.
Defined.

Lemma command_spans_lines_witness :
  complete_command 5 "insert" (demo [" user "; "u1 ;"; "Ann"])
  = Some (Return "insert user u1 ;",
          after_continuations 2 ["Ann"] (demo [" user "; "u1 ;"; "Ann"])).
Proof.
  apply (command_spans_lines 5 "insert" [" user "] "u1 ;" ["Ann"]
           (demo [" user "; "u1 ;"; "Ann"])).
  - reflexivity.
  - repeat constructor.
  - reflexivity.
  - reflexivity.
  - simpl. lia.
Defined.

Lemma command_unfinished_at_end_of_input_witness :
  complete_command 3 "select" (demo ["user"; "u1"])
  = Some (Raise EOFError, after_continuations 3 [] (demo ["user"; "u1"])).
Proof.
  apply (command_unfinished_at_end_of_input 3 "select" ["user"; "u1"] (demo ["user"; "u1"])).
  - reflexivity.
  - repeat constructor.
  - reflexivity.
  - simpl. lia.
Defined.

Lemma empty_command_ends_session_witness :
  run_session JsonLit.parse_payload 2 (demo [" ; ;"; "select user u1;"])
  = Some (Raise IndexError,
          after_command_prompt ["select user u1;"]
            (show (welcome (demo [" ; ;"; "select user u1;"]))
               (demo [" ; ;"; "select user u1;"]))).
Proof.
  refine (eq_trans
            (empty_command_ends_session JsonLit.parse_payload 1 " ; ;" ["select user u1;"]
               (demo [" ; ;"; "select user u1;"]) eq_refl eq_refl eq_refl) _).
  reflexivity.
Defined.

Lemma quit_ends_session_witness :
  run_session JsonLit.parse_payload 2 (demo [":q now;"; "select user u1;"])
  = Some (Return tt,
          show goodbye
            (after_command_prompt ["select user u1;"]
               (show (welcome (demo [":q now;"; "select user u1;"]))
                  (demo [":q now;"; "select user u1;"])))).
Proof.
  refine (eq_trans
            (quit_ends_session JsonLit.parse_payload 1 ":q now;" ["select user u1;"]
               ":q" ["now"] (demo [":q now;"; "select user u1;"]) eq_refl eq_refl eq_refl _) _).
  - repeat constructor.
  - reflexivity.
Defined.

Lemma unknown_command_witness :
  run_command JsonLit.parse_payload "!help" [] (demo [])
  = (Return tt, show invalid_command (demo [])).
Proof.
  apply (unknown_command JsonLit.parse_payload "!help" [] (demo [])).
  intros Hc. by refute_elem Hc.
Defined.

Lemma unknown_schema_witness :
  run_command JsonLit.parse_payload "insert" ["ghost"; "u1"] (demo [])
  = (Raise (AssertionError "No schema named [bold]ghost[/bold] found"), demo []) /\
  run_command JsonLit.parse_payload "select" ["ghost"; "u1"] (demo [])
  = (Raise (AssertionError "No schema named ghost found"), demo []) /\
  run_command JsonLit.parse_payload "!display_schema" ["ghost"] (demo [])
  = (Raise (AssertionError "No schema named [bold]ghost[/bold] found"), demo []).
Proof.
  apply (unknown_schema JsonLit.parse_payload "ghost" ["u1"] (demo [])). reflexivity.
Defined.

Lemma inline_insert_unhandled_witness :
  run_command JsonLit.parse_payload "insert" ["user"; "u1"; "name=Ann"; "age=30"] (demo [])
  = Engine.Schema_write JsonLit.parse_payload "user" "u1" "name=Ann age=30" (demo []).
Proof.
  apply (inline_insert_unhandled JsonLit.parse_payload "user" "u1" "name=Ann" ["age=30"]
           (mkSchema user_configs ∅) (demo [])).
  reflexivity.
Defined.

Lemma unhandled_exception_ends_session_witness :
  run_session JsonLit.parse_payload 2 (demo ["select user;"; "select user u1;"])
  = Some (Raise IndexError,
          after_command_prompt ["select user u1;"]
            (show (welcome (demo ["select user;"; "select user u1;"]))
               (demo ["select user;"; "select user u1;"]))).
Proof.
  refine (eq_trans
            (unhandled_exception_ends_session JsonLit.parse_payload 1 "select user;"
               ["select user u1;"] "select" ["user"] IndexError
               (demo ["select user;"; "select user u1;"])
               (after_command_prompt ["select user u1;"]
                  (show (welcome (demo ["select user;"; "select user u1;"]))
                     (demo ["select user;"; "select user u1;"])))
               eq_refl eq_refl eq_refl eq_refl eq_refl eq_refl) _).
  reflexivity.
Defined.

Lemma run_session_returns_after_goodbye_witness :
  exists w'',
    show goodbye (after_command_prompt [] (show (welcome (demo ["!q;"])) (demo ["!q;"])))
    = show goodbye w''.
Proof.
  apply (run_session_returns_after_goodbye JsonLit.parse_payload 2 (demo ["!q;"])).
  reflexivity.
Defined.

Lemma insert_array_not_iterable_witness :
  run_command JsonLit.parse_payload "insert" ["tags"; "t1"] (tagged ["5"; "select tags t1;"])
  = (Raise (TypeError "'int' object is not iterable"),
     after_prompts [("xs", A_INTEGER)] ["select tags t1;"] (tagged ["5"; "select tags t1;"])).
Proof.
  apply (insert_array_not_iterable JsonLit.parse_payload "tags" "t1"
           (mkSchema [("xs", A_INTEGER)] ∅) [] "xs" A_INTEGER [] [] [] "5" (PyInt 5)
           ["select tags t1;"] (tagged ["5"; "select tags t1;"])); try reflexivity.
  - constructor.
  - repeat constructor.
Defined.

Lemma string_fields_accept_any_line_witness :
  map_insert_to_json note_configs (demo ["{not json"; "[1,"])
  = (Return (json_dumps (PyDict [("title", PyStr "{not json"); ("body", PyStr "[1,")])),
     after_prompts note_configs [] (demo ["{not json"; "[1,"])).
Proof.
  apply (string_fields_accept_any_line note_configs ["{not json"; "[1,"] []
           (demo ["{not json"; "[1,"])).
  - repeat constructor.
  - apply (bool_decide_unpack _). reflexivity.
  - reflexivity.
  - reflexivity.
Defined.

Lemma prompting_stops_at_failure_witness :
  map_insert_to_json user_configs (demo ["Bob"; "null"; "select user u1;"])
  = (Raise (DataTypeConflictException "int" "<class 'NoneType'>"),
     after_prompts user_configs ["select user u1;"] (demo ["Bob"; "null"; "select user u1;"])).
Proof.
  apply (prompting_stops_at_failure [("name", STRING)] "age" INTEGER [] ["Bob"] [PyStr "Bob"]
           "null" (DataTypeConflictException "int" "<class 'NoneType'>") ["select user u1;"]
           (demo ["Bob"; "null"; "select user u1;"])).
  - repeat constructor.
  - reflexivity.
  - reflexivity.
Defined.

Lemma prompting_at_end_of_input_witness :
  map_insert_to_json user_configs (demo ["Bob"])
  = (Raise EOFError, after_prompts user_configs [] (demo ["Bob"])).
Proof.
  apply (prompting_at_end_of_input [("name", STRING)] "age" INTEGER [] ["Bob"] [PyStr "Bob"]
           (demo ["Bob"])).
  - repeat constructor.
  - reflexivity.
Defined.

Lemma array_field_blocks_prompted_insert_witness :
  (exists e, (map_insert_to_json [("xs", A_INTEGER)] (tagged ["[1, 2]"])).1 = Raise e) /\
  schemas (run_command JsonLit.parse_payload "insert" ["tags"; "t1"] (tagged ["[1, 2]"])).2
  = schemas (tagged ["[1, 2]"]) /\
  disk (run_command JsonLit.parse_payload "insert" ["tags"; "t1"] (tagged ["[1, 2]"])).2
  = disk (tagged ["[1, 2]"]).
Proof.
  apply (array_field_blocks_prompted_insert JsonLit.parse_payload "tags" "t1"
           (mkSchema [("xs", A_INTEGER)] ∅) "xs" A_INTEGER (tagged ["[1, 2]"])).
  - reflexivity.
  - repeat constructor.
  - reflexivity.
Defined.

(** Arrays stay arrays: the storage engine takes a record with an array
    field given on the command line, and a read that finds the cache cold
    decodes the same list of integers from the record file. *)
Example array_roundtrip_cold :
  exists w1,
    run_command JsonLit.parse_payload "insert"
      ["tags"; "t1"; "{" +:+ JsonLit.quoted "xs" +:+ ":"; "[1,"; "2]}"] (tagged [])
    = (Return tt, w1) /\
    (Engine.Schema_read "tags" "t1" (set_schemas (schemas (tagged [])) w1)).1
    = Return [("xs", PyList [PyInt 1; PyInt 2])].
Proof. eexists. split; vm_compute; reflexivity. Qed.

(** ** A session, run *)

(** The scenarios of the spec typed into one session that starts on an
    empty database: declare the schema, insert a record at the prompts,
    read it back, read a record that does not exist, type a word where an
    integer is due, type a string where an integer is due, type an array
    whose elements all match, and quit. *)
Example session_scenarios :
  let lines :=
    ["!create_schema user name STRING age INTEGER;";
     "insert user u1;"; "Ann"; "30";
     "select user u1;";
     "select user nope;";
     "insert user u2;"; "Bob"; "thirty";
     "insert user u2;"; "Bob"; JsonLit.quoted "thirty";
     "!create_schema tags xs ARRAY_INTEGER;";
     "insert tags t1;"; "[1, 2]";
     "!quit;"] in
  exists w',
    run_session JsonLit.parse_payload 17 (mkWorld "db" lines [] ∅ ∅) = Some (Return tt, w') /\
    stdin w' = [] /\
    output w'
    = [Printed " [bold][cyan]Welcome to peanuts 🥜, Connected to database: [bold]db[/bold][/cyan][/bold]";
       Tabulated [[PyStr "name"; PyStr "Ann"]; [PyStr "age"; PyInt 30]];
       Printed "[red]No data with ID nope found.";
       Printed "[red]Invalid Input.";
       Printed "[red]Expected int, got <class 'str'>";
       Printed "[red]";
       Printed "[green]Thanks for using [bold]peanuts[/bold]!"] /\
    disk w' = {["user" := {["u1" := ann_payload]}; "tags" := ∅]}.
Proof. eexists. vm_compute. repeat split; reflexivity. Qed.
